(** * Session-aware API client ([src/services/api.ts])

    A shallow embedding of the admin console's request layer: the module-level
    [accessToken], [persistToken], [request] and the derived operations of
    [authApi], [adminApi], [publicApi] and [currencyApi], with two helpers of
    the console ([src/App.tsx]), followed by the properties the specification
    states about them and by further properties read off the code.

    The client is asynchronous but straight-line: every [await] is modelled
    as the next step of a state-and-exception monad over the client's mutable
    state (the token, [window.localStorage] and the log of [fetch] calls). *)

From Stdlib Require Import ZArith String Ascii List Bool Lia DecimalString.
From stdpp Require Import base option gmap strings.

Set Warnings "-register-all".
Open Scope string_scope.
Open Scope list_scope.
Open Scope Z_scope.

(** ** Runtime values

    The client handles values typed [unknown]: request bodies, parsed
    payloads, whatever the server put under [token].

    A string is carried as the bytes of its UTF-8 text.  A number is carried
    as the text [String()] gives for it (its shortest decimal form, exponent
    form from 1e21 on, ['NaN'], ['Infinity'], and ['0'] for both zeros): the
    client never computes with numbers, it only tests and prints them. *)

Inductive number : Type := Num (text : string).

Inductive value : Type :=
  | VUndefined
  | VNull
  | VBool (b : bool)
  | VNum (n : number)
  | VStr (s : string)
  | VArr (xs : list value)
  | VObj (o : gmap string value)
  | VFormData (entries : list (string * string)).

Module JS.

(** [!!v] *)
Definition truthy (v : value) : bool :=
  match v with
  | VUndefined | VNull => false
  | VBool b => b
  | VNum (Num text) => negb (String.eqb text "0") && negb (String.eqb text "NaN")
  | VStr s => negb (String.eqb s "")
  | VArr _ | VObj _ | VFormData _ => true
  end.

(** [v === undefined || v === null] *)
Definition nullish (v : value) : bool :=
  match v with
  | VUndefined | VNull => true
  | _ => false
  end.

(** [typeof v === 'string'] *)
Definition isString (v : value) : bool :=
  match v with
  | VStr _ => true
  | _ => false
  end.

(** [Array.isArray(v)] *)
Definition isArray (v : value) : bool :=
  match v with
  | VArr _ => true
  | _ => false
  end.

(** [String(n)] for an integer that is written with all its digits, as a
    response status (an unsigned short) is. *)
Definition decimal (n : Z) : string := NilZero.string_of_int (Z.to_int n).

(** [String(n)] *)
Definition numberToString (n : number) : string :=
  match n with
  | Num text => text
  end.

Fixpoint joinWith (sep : string) (parts : list string) : string :=
  match parts with
  | [] => ""
  | [p] => p
  | p :: rest => p +:+ sep +:+ joinWith sep rest
  end.

(** [String(v)], as used by template literals, by [Storage.setItem] and by
    [Array.prototype.join]; [None] when the conversion throws a TypeError.
    A parsed object has no callable [toString] of its own: when it has a
    'toString' key the inherited one is hidden and the conversion throws,
    otherwise the inherited one answers '[object Object]'.  An array is
    converted by joining its elements with commas. *)
Fixpoint toString (v : value) : option string :=
  match v with
  | VUndefined => Some "undefined"
  | VNull => Some "null"
  | VBool true => Some "true"
  | VBool false => Some "false"
  | VNum n => Some (numberToString n)
  | VStr s => Some s
  | VArr xs =>
      joinWith "," <$>
        (fix elements (l : list value) : option (list string) :=
           match l with
           | [] => Some []
           | x :: rest =>
               match match x with
                     | VUndefined | VNull => Some ""
                     | _ => toString x
                     end, elements rest with
               | Some s, Some ss => Some (s :: ss)
               | _, _ => None
               end
           end) xs
  | VObj o =>
      if bool_decide (is_Some (o !! "toString")) then None
      else Some "[object Object]"
  | VFormData _ => Some "[object FormData]"
  end.

(** The texts of the elements of an array, as [join] takes them. *)
Fixpoint elementTexts (xs : list value) : option (list string) :=
  match xs with
  | [] => Some []
  | x :: rest =>
      match (if nullish x then Some "" else toString x), elementTexts rest with
      | Some s, Some ss => Some (s :: ss)
      | _, _ => None
      end
  end.

(** [xs.join(sep)]; [None] when an element cannot be converted. *)
Definition join (sep : string) (xs : list value) : option string :=
  joinWith sep <$> elementTexts xs.

(** The string [v], for a [v] that is one. *)
Definition text (v : value) : string :=
  match v with
  | VStr s => s
  | _ => ""
  end.

(** [v[k]] on a value that is neither [null] nor [undefined].  The client
    only reads the names [error], [message], [data], [token], [user] and
    [rates]; strings, numbers, arrays and form data have no property of
    these names. *)
Definition prop (v : value) (k : string) : value :=
  match v with
  | VObj o => default VUndefined (o !! k)
  | _ => VUndefined
  end.

(** [k in v], for [v] an object and [k] one of the names above. *)
Definition hasProp (k : string) (v : value) : bool :=
  match v with
  | VObj o => bool_decide (is_Some (o !! k))
  | _ => false
  end.

(** [s.includes(needle)] *)
Fixpoint includes (needle s : string) : bool :=
  String.prefix needle s ||
  match s with
  | EmptyString => false
  | String _ rest => includes needle rest
  end.

End JS.

(** ** Header values

    What [headers.set(name, v)] does with the value [v] of a header (the
    names the client uses are fixed and valid).  The value is first taken as
    a byte string, which throws a TypeError when it has a code unit above
    U+00FF; it is then normalised, losing the tabs, line feeds, carriage
    returns and spaces at its two ends; what is left must hold no NUL, line
    feed or carriage return, or the call throws a TypeError. *)

Module Headers.

(** A code unit above U+00FF shows in the UTF-8 text as a byte from 0xC4
    on. *)
Fixpoint isByteString (s : string) : bool :=
  match s with
  | EmptyString => true
  | String c rest => (nat_of_ascii c <? 196)%nat && isByteString rest
  end.

Definition isWhitespace (c : ascii) : bool :=
  let n := nat_of_ascii c in
  ((n =? 9) || (n =? 10) || (n =? 13) || (n =? 32))%nat.

Fixpoint stripLeading (s : string) : string :=
  match s with
  | EmptyString => EmptyString
  | String c rest => if isWhitespace c then stripLeading rest else s
  end.

Fixpoint stripTrailing (s : string) : string :=
  match s with
  | EmptyString => EmptyString
  | String c rest =>
      match stripTrailing rest with
      | EmptyString => if isWhitespace c then EmptyString else String c EmptyString
      | kept => String c kept
      end
  end.

Definition normalise (s : string) : string := stripTrailing (stripLeading s).

Definition isForbidden (c : ascii) : bool :=
  let n := nat_of_ascii c in
  ((n =? 0) || (n =? 10) || (n =? 13))%nat.

Fixpoint isValid (s : string) : bool :=
  match s with
  | EmptyString => true
  | String c rest => negb (isForbidden c) && isValid rest
  end.

(** The value [headers.set] stores for [v]; [None] when it throws. *)
Definition stored (v : string) : option string :=
  if isByteString v then
    if isValid (normalise v) then Some (normalise v) else None
  else None.

End Headers.

(** ** Errors, responses and fetch calls *)

(** What a rejected promise carries: the module's own [ApiError], or an
    error of the platform ([TypeError], [SyntaxError], a network failure),
    identified by its text. *)
Inductive exn : Type :=
  | ApiError (message : string) (status : option Z) (details : value)
  | Native (what : string).

Definition Result (A : Type) : Type := (exn + A)%type.

(** A [Response]: its status (an unsigned short), what
    [headers.get('content-type')] gives, and what [json()] and [text()]
    settle to when they are called. *)
Record Response : Type := mkResponse {
  status : Z;
  contentType : option string;
  json : string + value;
  text : string + string
}.

(** [response.ok] *)
Definition ok (r : Response) : bool := (200 <=? status r) && (status r <=? 299).

Inductive BodyInit : Type :=
  | BodyFormData (entries : list (string * string))
  | BodyString (s : string).

(** The arguments of one [fetch] call. *)
Record FetchCall : Type := mkFetchCall {
  url : string;
  method : string;
  headers : gmap string string;
  body : option BodyInit
}.

(** ** Client state *)

Record Client : Type := mkClient {
  accessToken : value;
  (** [window.localStorage]; [None] when [typeof window === 'undefined'] *)
  localStorage : option (gmap string string);
  (** the [fetch] calls made so far, oldest first *)
  network : list FetchCall
}.

Definition TOKEN_STORAGE_KEY : string := "aboi_admin_token".

(** The token the storage holds under the fixed key, if any. *)
Definition storedToken (st : Client) : option string :=
  ls ← localStorage st; ls !! TOKEN_STORAGE_KEY.

(** Module initialisation (lines 12-16). *)
Definition initialClient (storage : option (gmap string string)) : Client :=
  {| accessToken :=
       match storage with
       | Some ls => from_option VStr VNull (ls !! TOKEN_STORAGE_KEY)
       | None => VNull
       end;
     localStorage := storage;
     network := [] |}.

(** ** The monad of client operations *)

Definition M (A : Type) : Type := Client -> Result A * Client.

Definition ret {A} (a : A) : M A := fun st => (inr a, st).

Definition throw {A} (e : exn) : M A := fun st => (inl e, st).

Definition bind {A B} (m : M A) (k : A -> M B) : M B :=
  fun st =>
    match m st with
    | (inr a, st') => k a st'
    | (inl e, st') => (inl e, st')
    end.

(** [try { m } catch (error) { h error }] *)
Definition tryCatch {A} (m : M A) (h : exn -> M A) : M A :=
  fun st =>
    match m st with
    | (inr a, st') => (inr a, st')
    | (inl e, st') => h e st'
    end.

(** [try { m } finally { f }], for a [f] that does not throw. *)
Definition tryFinally {A} (m : M A) (f : M unit) : M A :=
  fun st =>
    match m st with
    | (r, st') =>
        match f st' with
        | (inr _, st'') => (r, st'')
        | (inl e, st'') => (inl e, st'')
        end
    end.

Definition readToken : M value := fun st => (inr (accessToken st), st).

(** [await p] for a promise of the platform that has settled to [p]. *)
Definition await {A} (p : string + A) : M A :=
  match p with
  | inr a => ret a
  | inl e => throw (Native e)
  end.

Notation "x <- c1 ;; c2" := (bind c1 (fun x => c2))
  (at level 100, c1 at next level, right associativity).
Notation "c1 ;;; c2" := (bind c1 (fun _ => c2))
  (at level 100, right associativity).

(** ** [persistToken] (lines 18-30)

    The variable is assigned first; [setItem] then converts the token to a
    string, which throws for a token that has no conversion.  The storage is
    taken to accept every write: a write it refuses (a full quota) is not
    modelled. *)

Definition persistToken (token : value) : M unit :=
  fun st =>
    let st1 := {| accessToken := token;
                  localStorage := localStorage st;
                  network := network st |} in
    match localStorage st with
    | None => (inr tt, st1)
    | Some ls =>
        if JS.truthy token then
          match JS.toString token with
          | Some written =>
              (inr tt, {| accessToken := token;
                          localStorage := Some (<[TOKEN_STORAGE_KEY := written]> ls);
                          network := network st |})
          | None =>
              (inl (Native "TypeError: Cannot convert object to primitive value"),
               st1)
          end
        else
          (inr tt, {| accessToken := token;
                      localStorage := Some (delete TOKEN_STORAGE_KEY ls);
                      network := network st |})
    end.

(** ** [request] (lines 44-126) *)

Record RequestOptions : Type := mkOptions {
  opt_method : option string;
  (** [VUndefined] when the caller gives no body *)
  opt_body : value;
  opt_authenticated : option bool
}.

Definition noOptions : RequestOptions :=
  {| opt_method := None; opt_body := VUndefined; opt_authenticated := None |}.

(** [url.replace(/\/$/, '')] *)
Fixpoint normaliseBaseUrl (u : string) : string :=
  match u with
  | EmptyString => EmptyString
  | String c rest =>
      if Ascii.eqb c "/" && String.eqb rest "" then EmptyString
      else String c (normaliseBaseUrl rest)
  end.

Definition isFormData (v : value) : bool :=
  match v with
  | VFormData _ => true
  | _ => false
  end.

Definition isRecord (v : value) : bool :=
  match v with
  | VArr _ | VObj _ | VFormData _ => true
  | _ => false
  end.

(** The [authenticated] flag after destructuring with its default. *)
Definition authenticatedOf (options : RequestOptions) : bool :=
  default true (opt_authenticated options).

(** The guard of line 62: [authenticated && !accessToken]. *)
Definition unauthenticated (options : RequestOptions) (st : Client) : bool :=
  authenticatedOf options && negb (JS.truthy (accessToken st)).

(** Lines 66-79: the initial headers and the body handed to [fetch]. *)
Definition encodeBody (stringify : value -> string) (b : value)
  : gmap string string * option BodyInit :=
  let headers0 : gmap string string := {[ "Accept" := "application/json" ]} in
  if negb (JS.nullish b) then
    match b with
    | VFormData entries => (headers0, Some (BodyFormData entries))
    | VStr s =>
        (<["Content-Type" := "application/json"]> headers0, Some (BodyString s))
    | _ =>
        (<["Content-Type" := "application/json"]> headers0,
         Some (BodyString (stringify b)))
    end
  else (headers0, None).

(** Lines 91-100: the payload of a response, or the error its body reader
    rejects with. *)
Definition readPayload (response : Response) : string + value :=
  if negb (status response =? 204) then
    match contentType response with
    | Some ct =>
        if negb (String.eqb ct "") && JS.includes "application/json" ct then
          json response
        else sum_map id VStr (text response)
    | None => sum_map id VStr (text response)
    end
  else inr VNull.

(** Lines 103-112: the message of the error raised for a failed response. *)
Definition failureMessage (response : Response) (payload : value) : string :=
  let message := "Request failed with status " +:+ JS.decimal (status response) in
  if isRecord payload then
    let errorPayload := JS.prop payload "error" in
    if isRecord errorPayload && JS.isString (JS.prop errorPayload "message") then
      JS.text (JS.prop errorPayload "message")
    else if JS.isString (JS.prop payload "message") then
      JS.text (JS.prop payload "message")
    else message
  else message.

(** The platform the module runs on: the build-time environment, the
    built-in serialisers, and what a [fetch] call settles to given the calls
    made before it. *)
Record Platform : Type := mkPlatform {
  VITE_API_BASE_URL : option string;
  JSON_stringify : value -> string;
  URLSearchParams_toString : list (string * string) -> string;
  fetch : list FetchCall -> FetchCall -> string + Response
}.

(** The state after one more [fetch] call went out. *)
Definition logged (st : Client) (call : FetchCall) : Client :=
  {| accessToken := accessToken st;
     localStorage := localStorage st;
     network := network st ++ [call] |}.

Section Client.

Variable platform : Platform.

Definition API_BASE_URL : string :=
  normaliseBaseUrl
    (default "http://localhost:3001" (VITE_API_BASE_URL platform)).

Definition resolveUrl (path : string) : string :=
  API_BASE_URL +:+ (if String.prefix "/" path then path else "/" +:+ path).

(** Lines 81-83: the headers with the Authorization header set, or the
    TypeError raised by the template literal or by [headers.set]. *)
Definition authorise (options : RequestOptions) (st : Client)
    (headers1 : gmap string string) : Result (gmap string string) :=
  if authenticatedOf options && JS.truthy (accessToken st) then
    match JS.toString (accessToken st) with
    | None => inl (Native "TypeError: Cannot convert object to primitive value")
    | Some token =>
        match Headers.stored ("Bearer " +:+ token) with
        | None => inl (Native "TypeError: Invalid header value")
        | Some kept => inr (<["Authorization" := kept]> headers1)
        end
    end
  else inr headers1.

(** Lines 60-89: what [request] does before [fetch]: the error it raises,
    or the arguments it passes to [fetch]. *)
Definition fetchCall (path : string) (options : RequestOptions) (st : Client)
  : Result FetchCall :=
  if unauthenticated options st then
    inl (ApiError "Not authenticated" (Some 401) VUndefined)
  else
    let '(headers1, fetchBody) :=
      encodeBody (JSON_stringify platform) (opt_body options) in
    match authorise options st headers1 with
    | inl e => inl e
    | inr headers2 =>
        inr {| url := resolveUrl path;
               method := default "GET" (opt_method options);
               headers := headers2;
               body := fetchBody |}
    end.

(** [await fetch(...)]: the call goes out, then settles. *)
Definition doFetch (call : FetchCall) : M Response :=
  fun st =>
    match fetch platform (network st) call with
    | inr response => (inr response, logged st call)
    | inl e => (inl (Native e), logged st call)
    end.

(** Lines 102-125: what [request] settles to once the payload is read. *)
Definition settle (response : Response) (payload : value) : M value :=
  if negb (ok response) then
    let message := failureMessage response payload in
    (if (status response =? 401) || (status response =? 403)
     then persistToken VNull else ret tt) ;;;
    throw (ApiError message (Some (status response)) payload)
  else if isRecord payload && JS.hasProp "data" payload then
    ret (JS.prop payload "data")
  else ret payload.

Definition request (path : string) (options : RequestOptions) : M value :=
  fun st =>
    match fetchCall path options st with
    | inl e => throw e st
    | inr call =>
        (response <- doFetch call ;;
         payload <- await (readPayload response) ;;
         settle response payload) st
    end.

(** [v.k]: reading a property of [null] or [undefined] throws. *)
Definition member (v : value) (k : string) : M value :=
  if JS.nullish v then
    throw (Native ("TypeError: Cannot read properties of "
                   +:+ match v with VNull => "null" | _ => "undefined" end))
  else ret (JS.prop v k).

(** [error instanceof ApiError && error.status === 401] *)
Definition isApiError401 (error : exn) : bool :=
  match error with
  | ApiError _ (Some s) _ => s =? 401
  | _ => false
  end.

End Client.

(** ** [authApi] (lines 237-285) *)

Module authApi.
Section Operations.

Variable platform : Platform.

Definition login (email password : string) : M value :=
  result <- request platform "/auth/login"
              {| opt_method := Some "POST";
                 opt_body := VObj {[ "username" := VStr email;
                                     "password" := VStr password ]};
                 opt_authenticated := Some false |} ;;
  token <- member result "token" ;;
  persistToken token ;;;
  ret result.

Definition me : M value :=
  token <- readToken ;;
  if negb (JS.truthy token) then ret VNull
  else
    tryCatch
      (result <- request platform "/auth/me" noOptions ;;
       member result "user")
      (fun error =>
         if isApiError401 error then ret VNull else throw error).

Definition logoutOptions : RequestOptions :=
  {| opt_method := Some "POST"; opt_body := VUndefined;
     opt_authenticated := None |}.

Definition logout : M unit :=
  token <- readToken ;;
  if negb (JS.truthy token) then ret tt
  else
    tryFinally
      (tryCatch
         (request platform "/auth/logout" logoutOptions ;;;
          ret tt)
         (fun error =>
            if negb (isApiError401 error) then throw error else ret tt))
      (persistToken VNull).

End Operations.
End authApi.

(** ** [currencyApi] (lines 369-385) *)

Module currencyApi.
Section Operations.

Variable platform : Platform.

(** Lines 375-379: the path with its query string, for the joined
    symbols. *)
Definition ratesPath (base : option string) (joined : string) : string :=
  let params := [("base", default "USD" base); ("symbols", joined)] in
  "/currency/rates?" +:+ URLSearchParams_toString platform params.

Definition publicOptions : RequestOptions :=
  {| opt_method := None; opt_body := VUndefined;
     opt_authenticated := Some false |}.

Definition getRates (base : option string) (symbols : value) : M value :=
  match symbols with
  | VArr items =>
      if Z.of_nat (length items) =? 0 then ret (VObj ∅)
      else
        match JS.join "," items with
        | None =>
            throw (Native "TypeError: Cannot convert object to primitive value")
        | Some joined =>
            response <- request platform (ratesPath base joined) publicOptions ;;
            rates <- member response "rates" ;;
            ret (if JS.nullish rates then VObj ∅ else rates)
        end
  | _ => ret (VObj ∅)
  end.

End Operations.
End currencyApi.

(** ** [adminApi] (lines 287-352) *)

Module adminApi.
Section Operations.

Variable platform : Platform.

Definition getCommodities : M value :=
  request platform "/admin/commodities" noOptions.

Definition createCommodity (payload : value) : M value :=
  request platform "/admin/commodities"
    {| opt_method := Some "POST"; opt_body := payload;
       opt_authenticated := None |}.

Definition updateCommodity (id : string) (payload : value) : M unit :=
  request platform ("/admin/commodities/" +:+ id)
    {| opt_method := Some "PUT"; opt_body := payload;
       opt_authenticated := None |} ;;;
  ret tt.

Definition deleteCommodity (id : string) : M unit :=
  request platform ("/admin/commodities/" +:+ id)
    {| opt_method := Some "DELETE"; opt_body := VUndefined;
       opt_authenticated := None |} ;;;
  ret tt.

Definition updatePriceRange (id : string) (payload : value) : M unit :=
  request platform ("/admin/commodities/" +:+ id +:+ "/price-range")
    {| opt_method := Some "PUT"; opt_body := payload;
       opt_authenticated := None |} ;;;
  ret tt.

Definition updateCommodityPrice (id : string) (payload : value) : M unit :=
  request platform ("/admin/commodities/" +:+ id +:+ "/price")
    {| opt_method := Some "PUT"; opt_body := payload;
       opt_authenticated := None |} ;;;
  ret tt.

Definition triggerPriceUpdate : M value :=
  request platform "/admin/prices/update-all"
    {| opt_method := Some "POST"; opt_body := VUndefined;
       opt_authenticated := None |}.

Definition getDashboardSummary : M value :=
  request platform "/admin/dashboard/summary" noOptions.

(** [limit] is [None] when the caller leaves it out. *)
Definition getPriceUpdateRuns (limit : option number) : M value :=
  let searchParams :=
    [("limit", JS.numberToString (default (Num "20") limit))] in
  request platform
    ("/admin/price-update-runs?" +:+ URLSearchParams_toString platform searchParams)
    noOptions.

End Operations.
End adminApi.

(** ** [publicApi] (lines 354-367) *)

Inductive Currency : Type := zar | usd | both.

Definition currencyName (c : Currency) : string :=
  match c with
  | zar => "zar"
  | usd => "usd"
  | both => "both"
  end.

Module publicApi.
Section Operations.

Variable platform : Platform.

Definition getCategories : M value :=
  request platform "/commodities/categories"
    {| opt_method := None; opt_body := VUndefined;
       opt_authenticated := Some false |}.

(** [currency] is [None] when the caller leaves it out. *)
Definition getCurrentPrices (currency : option Currency) : M value :=
  let searchParams := [("currency", currencyName (default zar currency))] in
  request platform
    ("/prices/current?" +:+ URLSearchParams_toString platform searchParams)
    {| opt_method := None; opt_body := VUndefined;
       opt_authenticated := Some false |}.

End Operations.
End publicApi.

(** ** Helpers of the console ([src/App.tsx]) *)

Module App.

(** [\w] of a regular expression without flags: [A-Za-z0-9_].  Strings are
    taken as the bytes of their UTF-8 text; no byte of a character outside
    ASCII is a word character. *)
Definition isWordChar (c : ascii) : bool :=
  let n := nat_of_ascii c in
  ((48 <=? n) && (n <=? 57) || (65 <=? n) && (n <=? 90) ||
   (97 <=? n) && (n <=? 122) || (n =? 95))%nat.

(** [char.toUpperCase()] on one word character. *)
Definition toUpperCase (c : ascii) : ascii :=
  let n := nat_of_ascii c in
  if ((97 <=? n) && (n <=? 122))%nat then ascii_of_nat (n - 32) else c.

(** [value.replace(/_/g, ' ')] *)
Fixpoint replaceUnderscores (s : string) : string :=
  match s with
  | EmptyString => EmptyString
  | String c rest =>
      String (if Ascii.eqb c "_" then " "%char else c) (replaceUnderscores rest)
  end.

(** [value.replace(/\b\w/g, (char) => char.toUpperCase())]: a word character
    is replaced when the character before it, if any, is not one.
    [afterWord] tells whether the character before [s] was one. *)
Fixpoint capitalise (afterWord : bool) (s : string) : string :=
  match s with
  | EmptyString => EmptyString
  | String c rest =>
      String (if isWordChar c && negb afterWord then toUpperCase c else c)
             (capitalise (isWordChar c) rest)
  end.

(** Lines 129-136; [None] stands for [null] and [undefined]. *)
Definition humanize (value : option string) : string :=
  match value with
  | None => "Unknown"
  | Some v =>
      if String.eqb v "" then "Unknown"
      else capitalise false (replaceUnderscores v)
  end.

Record CategoryOption : Type := mkCategoryOption {
  id : string;
  name : string;
  description : option string;
  display_order : option Z
}.

Record ManageDraft : Type := mkManageDraft {
  draft_name : string;
  draft_symbol : string;
  category_id : string;
  draft_unit : string;
  draft_description : string;
  is_active : bool
}.

(** [categories.some((category) => category.id === wanted)] *)
Definition someCategory (wanted : string) (categories : list CategoryOption)
  : bool :=
  existsb (fun category => String.eqb (id category) wanted) categories.

(** Lines 354-371: the update the effect on [categories] applies to the
    draft of the new commodity. *)
Definition alignCategory (categories : list CategoryOption) (prev : ManageDraft)
  : ManageDraft :=
  let fallbackId := from_option id "" (head categories) in
  if negb (String.eqb (category_id prev) "")
     && someCategory (category_id prev) categories then prev
  else if String.eqb fallbackId "" || String.eqb (category_id prev) fallbackId
  then prev
  else {| draft_name := draft_name prev;
          draft_symbol := draft_symbol prev;
          category_id := fallbackId;
          draft_unit := draft_unit prev;
          draft_description := draft_description prev;
          is_active := is_active prev |}.

End App.

(** ** Sample platforms and sessions

    Concrete servers and client states on which the properties below are
    exercised. *)

Module Sample.

Definition plainQuery (params : list (string * string)) : string :=
  JS.joinWith "&" (map (fun kv => fst kv +:+ "=" +:+ snd kv) params).

Definition quoted (s : string) : string :=
  String (ascii_of_nat 34) (s +:+ String (ascii_of_nat 34) EmptyString).

(** A serialiser for the samples: no escaping, keys in the order of the
    map. *)
Fixpoint stringify (v : value) : string :=
  match v with
  | VUndefined | VNull | VFormData _ => "null"
  | VBool true => "true"
  | VBool false => "false"
  | VNum n => JS.numberToString n
  | VStr s => quoted s
  | VArr xs => "[" +:+ JS.joinWith "," (map stringify xs) +:+ "]"
  | VObj o =>
      "{" +:+
      JS.joinWith ","
        (map (fun kv => quoted (fst kv) +:+ ":" +:+ snd kv)
             (map_to_list (stringify <$> o))) +:+
      "}"
  end.

(** A platform whose server gives the same answer to every call. *)
Definition server (answer : string + Response) : Platform :=
  {| VITE_API_BASE_URL := Some "https://api.example.org/";
     JSON_stringify := stringify;
     URLSearchParams_toString := plainQuery;
     fetch := fun _ _ => answer |}.

(** In the two samples below the reader that [request] must not consult is
    set to reject. *)
Definition jsonResponse (code : Z) (payload : value) : Response :=
  {| status := code;
     contentType := Some "application/json; charset=utf-8";
     json := inr payload;
     text := inl "TypeError: body stream already read" |}.

Definition textResponse (code : Z) (content : string) : Response :=
  {| status := code;
     contentType := Some "text/plain";
     json := inl "SyntaxError: Unexpected token";
     text := inr content |}.

(** A JSON response whose body is empty, so that [json()] rejects. *)
Definition unreadable (code : Z) : Response :=
  {| status := code;
     contentType := Some "application/json";
     json := inl "SyntaxError: Unexpected end of JSON input";
     text := inr "" |}.

(** [204 No Content], with a content type and body readers that would
    reject if they were called. *)
Definition noContent : Response :=
  {| status := 204;
     contentType := Some "application/json";
     json := inl "SyntaxError: Unexpected end of JSON input";
     text := inl "TypeError: Failed to fetch" |}.

(** A browser session with nothing stored, and one started with a stored
    token. *)
Definition signedOut : Client := initialClient (Some ∅).

Definition signedIn : Client :=
  initialClient (Some {[ TOKEN_STORAGE_KEY := "tok" ]}).

Definition alice : value :=
  VObj {[ "id" := VStr "u1"; "email" := VStr "alice@example.org";
          "role" := VStr "admin" ]}.

Definition loginPayload (token : string) : value :=
  VObj {[ "data" := VObj {[ "token" := VStr token; "user" := alice ]} ]}.

Definition expired : value :=
  VObj {[ "error" := VObj {[ "message" := VStr "Session expired" ]};
          "message" := VStr "Unauthorized" ]}.

End Sample.

(** ** Vocabulary of the specification *)

(** The payload is an object whose [error] is an object with a string
    [message]. *)
Definition hasErrorMessage (payload : value) (s : string) : Prop :=
  exists o e,
    payload = VObj o /\ o !! "error" = Some (VObj e) /\
    e !! "message" = Some (VStr s).

(** The payload is an object with a string [message]. *)
Definition hasMessage (payload : value) (s : string) : Prop :=
  exists o, payload = VObj o /\ o !! "message" = Some (VStr s).

(** The payload is an object with a [data] key holding [x]. *)
Definition hasData (payload : value) (x : value) : Prop :=
  exists o, payload = VObj o /\ o !! "data" = Some x.

Definition notAuthenticated : exn :=
  ApiError "Not authenticated" (Some 401) VUndefined.

(** The variable and the storage do not disagree: a held token has a text
    and that text is what is stored, and whatever is stored is the text of
    the variable. *)
Definition synced (st : Client) : Prop :=
  forall ls,
    localStorage st = Some ls ->
    (JS.truthy (accessToken st) = true ->
     exists written,
       JS.toString (accessToken st) = Some written /\
       ls !! TOKEN_STORAGE_KEY = Some written) /\
    (forall t, ls !! TOKEN_STORAGE_KEY = Some t ->
               JS.toString (accessToken st) = Some t).

(** An operation keeps a property of the client state, however it ends. *)
Definition preserves {A} (I : Client -> Prop) (m : M A) : Prop :=
  forall st, I st -> I (snd (m st)).

(** An operation sends at most one [fetch] call, however it ends. *)
Definition sendsAtMostOne {A} (m : M A) : Prop :=
  forall st, exists calls,
    network (snd (m st)) = network st ++ calls /\ (length calls <= 1)%nat.

(** The call of an authenticated request whose Authorization header holds
    [authorization]: to [path] under the base URL, with the payload, if any,
    serialised as JSON. *)
Definition bearerCall (P : Platform) (authorization : string)
    (verb path : string) (payload : option value) : FetchCall :=
  {| url := API_BASE_URL P +:+ path;
     method := verb;
     headers :=
       <["Authorization" := authorization]>
         (match payload with
          | Some _ =>
              <["Content-Type" := "application/json"]>
                {[ "Accept" := "application/json" ]}
          | None => {[ "Accept" := "application/json" ]}
          end);
     body := (fun v => BodyString (JSON_stringify P v)) <$> payload |}.

(** The call of a public read: a GET with the Accept header alone. *)
Definition publicCall (P : Platform) (path : string) : FetchCall :=
  {| url := API_BASE_URL P +:+ path;
     method := "GET";
     headers := {[ "Accept" := "application/json" ]};
     body := None |}.

(** [s] ends in a slash. *)
Fixpoint endsWithSlash (s : string) : bool :=
  match s with
  | EmptyString => false
  | String c rest =>
      if String.eqb rest "" then Ascii.eqb c "/" else endsWithSlash rest
  end.

(** The character [c] occurs in [s]. *)
Fixpoint occurs (c : ascii) (s : string) : bool :=
  match s with
  | EmptyString => false
  | String c' rest => Ascii.eqb c' c || occurs c rest
  end.

(** A platform with the given build-time base URL. *)
Definition withBaseUrl (base : option string) (P : Platform) : Platform :=
  {| VITE_API_BASE_URL := base;
     JSON_stringify := JSON_stringify P;
     URLSearchParams_toString := URLSearchParams_toString P;
     fetch := fetch P |}.

(** * Properties *)

(** ** General facts about the operations *)

Example normaliseBaseUrl_strips_one_slash :
  normaliseBaseUrl "https://api.example.org/" = "https://api.example.org" /\
  normaliseBaseUrl "https://api.example.org//" = "https://api.example.org/" /\
  normaliseBaseUrl "http://localhost:3001" = "http://localhost:3001".
Proof. repeat split; reflexivity. Qed.

Example resolveUrl_adds_leading_slash :
  resolveUrl (Sample.server (inr Sample.noContent)) "auth/me"
  = "https://api.example.org/auth/me" /\
  resolveUrl (Sample.server (inr Sample.noContent)) "/auth/me"
  = "https://api.example.org/auth/me".
Proof. split; reflexivity. Qed.

Example includes_finds_json :
  JS.includes "application/json" "application/json; charset=utf-8" = true /\
  JS.includes "application/json" "text/html" = false /\
  JS.includes "application/json" "" = false.
Proof. repeat split; reflexivity. Qed.

Example initialClient_loads_stored_token :
  accessToken Sample.signedIn = VStr "tok" /\
  accessToken Sample.signedOut = VNull /\
  accessToken (initialClient None) = VNull.
Proof. repeat split; reflexivity. Qed.

Lemma logged_accessToken st call : accessToken (logged st call) = accessToken st.
Proof. reflexivity. Qed.

Lemma logged_network st call : network (logged st call) = network st ++ [call].
Proof. reflexivity. Qed.

Example headers_set_normalises :
  Headers.stored "Bearer tok " = Some "Bearer tok" /\
  Headers.stored "application/json" = Some "application/json" /\
  Headers.stored ("Bearer a" +:+ String (ascii_of_nat 10) "b") = None.
Proof. repeat split; reflexivity. Qed.

Lemma toString_array xs : JS.toString (VArr xs) = JS.join "," xs.
Proof.
  unfold JS.join. simpl. f_equal.
  induction xs as [|x xs IH]; [reflexivity |].
  simpl. rewrite IH. destruct x; reflexivity.
Qed.

Lemma persistToken_falsy_result token st :
  JS.truthy token = false -> fst (persistToken token st) = inr tt.
Proof.
  intros H. unfold persistToken. rewrite H.
  destruct (localStorage st); reflexivity.
Qed.

Lemma persistToken_null_result st : fst (persistToken VNull st) = inr tt.
Proof. apply persistToken_falsy_result. reflexivity. Qed.

Lemma persistToken_string_result (t : string) st :
  fst (persistToken (VStr t) st) = inr tt.
Proof.
  unfold persistToken. destruct (localStorage st); [| reflexivity].
  destruct (JS.truthy (VStr t)); reflexivity.
Qed.

Lemma persistToken_accessToken token st :
  accessToken (snd (persistToken token st)) = token.
Proof.
  unfold persistToken. destruct (localStorage st); [| reflexivity].
  destruct (JS.truthy token); [destruct (JS.toString token) |]; reflexivity.
Qed.

Lemma persistToken_network token st :
  network (snd (persistToken token st)) = network st.
Proof.
  unfold persistToken. destruct (localStorage st); [| reflexivity].
  destruct (JS.truthy token); [destruct (JS.toString token) |]; reflexivity.
Qed.

Lemma persistToken_null_stored st : storedToken (snd (persistToken VNull st)) = None.
Proof.
  unfold persistToken, storedToken. destruct (localStorage st) as [ls|]; simpl.
  - apply lookup_delete_eq.
  - reflexivity.
Qed.

Lemma persistToken_string_stored (t : string) st ls :
  t <> "" -> localStorage st = Some ls ->
  localStorage (snd (persistToken (VStr t) st)) = Some (<[TOKEN_STORAGE_KEY := t]> ls).
Proof.
  intros Ht Hls. unfold persistToken. rewrite Hls. simpl.
  destruct (String.eqb_spec t ""); [contradiction | reflexivity].
Qed.

(** When the conversion of the token throws, the variable holds the token
    and the storage is as before. *)
Lemma persistToken_raised token st e :
  fst (persistToken token st) = inl e ->
  JS.truthy token = true /\ JS.toString token = None /\
  accessToken (snd (persistToken token st)) = token /\
  localStorage (snd (persistToken token st)) = localStorage st.
Proof.
  unfold persistToken. destruct (localStorage st) as [ls|] eqn:Hls;
    [| discriminate].
  destruct (JS.truthy token); [| discriminate].
  destruct (JS.toString token); [discriminate |].
  simpl. intros _. repeat split.
Qed.

Lemma tryFinally_clear {A} (m : M A) st :
  tryFinally m (persistToken VNull) st
  = (fst (m st), snd (persistToken VNull (snd (m st)))).
Proof.
  unfold tryFinally. destruct (m st) as [r st']. simpl.
  pose proof (persistToken_null_result st') as Hr.
  destruct (persistToken VNull st') as [[e | u] s]; [discriminate | reflexivity].
Qed.

Lemma logout_held P st :
  JS.truthy (accessToken st) = true ->
  authApi.logout P st
  = tryFinally
      (tryCatch
         (request P "/auth/logout" authApi.logoutOptions ;;; ret tt)
         (fun error =>
            if negb (isApiError401 error) then throw error else ret tt))
      (persistToken VNull) st.
Proof.
  intros Hheld. unfold authApi.logout, bind at 1, readToken.
  rewrite Hheld. reflexivity.
Qed.

Section Request.

Variable P : Platform.

Lemma fetchCall_blocked path options st :
  unauthenticated options st = true ->
  fetchCall P path options st = inl notAuthenticated.
Proof. intros H. unfold fetchCall. rewrite H. reflexivity. Qed.

Lemma fetchCall_passed path options st call :
  fetchCall P path options st = inr call ->
  unauthenticated options st = false.
Proof.
  unfold fetchCall. destruct (unauthenticated options st);
    [discriminate | reflexivity].
Qed.

Lemma request_stopped path options st e :
  fetchCall P path options st = inl e ->
  request P path options st = (inl e, st).
Proof. intros H. unfold request. rewrite H. reflexivity. Qed.

Lemma request_blocked path options st :
  unauthenticated options st = true ->
  request P path options st = (inl notAuthenticated, st).
Proof.
  intros H. apply request_stopped. apply fetchCall_blocked. exact H.
Qed.

Lemma request_sent path options st call response :
  fetchCall P path options st = inr call ->
  fetch P (network st) call = inr response ->
  request P path options st
  = match readPayload response with
    | inr payload => settle response payload (logged st call)
    | inl e => (inl (Native e), logged st call)
    end.
Proof.
  intros Hcall Hfetch. unfold request. rewrite Hcall.
  unfold bind, doFetch. rewrite Hfetch.
  destruct (readPayload response); reflexivity.
Qed.

Lemma request_fetch_rejected path options st call e :
  fetchCall P path options st = inr call ->
  fetch P (network st) call = inl e ->
  request P path options st = (inl (Native e), logged st call).
Proof.
  intros Hcall Hfetch. unfold request. rewrite Hcall.
  unfold bind, doFetch. rewrite Hfetch. reflexivity.
Qed.

Lemma settle_failure response payload st :
  ok response = false ->
  settle response payload st
  = (inl (ApiError (failureMessage response payload)
                   (Some (status response)) payload),
     if (status response =? 401) || (status response =? 403)
     then snd (persistToken VNull st) else st).
Proof.
  intros Hok. unfold settle. rewrite Hok. simpl. unfold bind.
  destruct ((status response =? 401) || (status response =? 403)).
  - destruct (persistToken VNull st) as [r st'] eqn:E.
    pose proof (persistToken_null_result st) as Hr. rewrite E in Hr.
    simpl in Hr. subst r. reflexivity.
  - reflexivity.
Qed.

Lemma settle_success response payload st :
  ok response = true ->
  settle response payload st
  = (inr (if isRecord payload && JS.hasProp "data" payload
          then JS.prop payload "data" else payload), st).
Proof.
  intros Hok. unfold settle. rewrite Hok. simpl.
  destruct (isRecord payload && JS.hasProp "data" payload); reflexivity.
Qed.

Lemma settle_network response payload st :
  network (snd (settle response payload st)) = network st.
Proof.
  destruct (ok response) eqn:Hok.
  - rewrite settle_success by assumption. reflexivity.
  - rewrite settle_failure by assumption. simpl.
    destruct ((status response =? 401) || (status response =? 403));
      [apply persistToken_network | reflexivity].
Qed.

Lemma request_network path options st call :
  fetchCall P path options st = inr call ->
  network (snd (request P path options st)) = network st ++ [call].
Proof.
  intros Hcall.
  destruct (fetch P (network st) call) as [e | response] eqn:Hfetch.
  - rewrite (request_fetch_rejected path options st call e Hcall Hfetch).
    reflexivity.
  - rewrite (request_sent path options st call response Hcall Hfetch).
    destruct (readPayload response) as [e | payload]; [reflexivity |].
    rewrite settle_network. reflexivity.
Qed.

Lemma request_success_state path options st v st' :
  request P path options st = (inr v, st') ->
  exists call,
    fetchCall P path options st = inr call /\ st' = logged st call.
Proof.
  intros Hreq.
  destruct (fetchCall P path options st) as [e | call] eqn:Hcall.
  { rewrite (request_stopped path options st e Hcall) in Hreq. discriminate. }
  exists call. split; [reflexivity |].
  destruct (fetch P (network st) call) as [e | response] eqn:Hfetch.
  - rewrite (request_fetch_rejected path options st call e Hcall Hfetch) in Hreq.
    discriminate.
  - rewrite (request_sent path options st call response Hcall Hfetch) in Hreq.
    destruct (readPayload response) as [e | payload]; [discriminate |].
    destruct (ok response) eqn:Hok.
    + rewrite settle_success in Hreq by exact Hok. congruence.
    + rewrite settle_failure in Hreq by exact Hok. discriminate.
Qed.

(** The parts of a call that goes out. *)
Lemma fetchCall_parts path options st call :
  fetchCall P path options st = inr call ->
  url call = resolveUrl P path /\
  method call = default "GET" (opt_method options) /\
  body call = snd (encodeBody (JSON_stringify P) (opt_body options)) /\
  authorise options st (fst (encodeBody (JSON_stringify P) (opt_body options)))
  = inr (headers call).
Proof.
  unfold fetchCall. destruct (unauthenticated options st); [discriminate |].
  destruct (encodeBody (JSON_stringify P) (opt_body options)) as [h b].
  simpl. destruct (authorise options st h) as [e | h2]; [discriminate |].
  intros [= <-]. repeat split.
Qed.

Lemma fetchCall_header path options st call (k : string) :
  fetchCall P path options st = inr call ->
  k <> "Authorization" ->
  headers call !! k
  = fst (encodeBody (JSON_stringify P) (opt_body options)) !! k.
Proof.
  intros Hcall Hk.
  destruct (fetchCall_parts path options st call Hcall) as (_ & _ & _ & Hauth).
  unfold authorise in Hauth.
  destruct (authenticatedOf options && JS.truthy (accessToken st)).
  - destruct (JS.toString (accessToken st)) as [token|]; [| discriminate].
    destruct (Headers.stored ("Bearer " +:+ token)); [| discriminate].
    injection Hauth as <-. apply lookup_insert_ne. congruence.
  - injection Hauth as <-. reflexivity.
Qed.

Lemma fetchCall_body path options st call :
  fetchCall P path options st = inr call ->
  body call = snd (encodeBody (JSON_stringify P) (opt_body options)).
Proof. intros Hcall. apply (fetchCall_parts path options st call Hcall). Qed.

(** What an authenticated request does before [fetch] while the string
    token [t] is held. *)
Lemma fetchCall_held path options st (t : string) :
  accessToken st = VStr t ->
  t <> "" ->
  authenticatedOf options = true ->
  fetchCall P path options st
  = match Headers.stored ("Bearer " +:+ t) with
    | Some kept =>
        inr {| url := resolveUrl P path;
               method := default "GET" (opt_method options);
               headers :=
                 <["Authorization" := kept]>
                   (fst (encodeBody (JSON_stringify P) (opt_body options)));
               body := snd (encodeBody (JSON_stringify P) (opt_body options)) |}
    | None => inl (Native "TypeError: Invalid header value")
    end.
Proof.
  intros Htok Ht Hauth. unfold fetchCall, unauthenticated, authorise.
  rewrite Hauth, Htok. simpl.
  destruct (String.eqb_spec t ""); [contradiction |]. simpl.
  destruct (encodeBody (JSON_stringify P) (opt_body options)) as [h b].
  simpl. destruct (Headers.stored ("Bearer " +:+ t)); reflexivity.
Qed.

(** A request made with [authenticated: false] always goes out, with the
    headers of its body alone. *)
Lemma fetchCall_anonymous path options st :
  authenticatedOf options = false ->
  fetchCall P path options st
  = inr {| url := resolveUrl P path;
           method := default "GET" (opt_method options);
           headers := fst (encodeBody (JSON_stringify P) (opt_body options));
           body := snd (encodeBody (JSON_stringify P) (opt_body options)) |}.
Proof.
  intros Hauth. unfold fetchCall, unauthenticated, authorise.
  rewrite Hauth. simpl.
  destruct (encodeBody (JSON_stringify P) (opt_body options)) as [h b].
  reflexivity.
Qed.

Lemma unauthenticated_no_token options st :
  authenticatedOf options = true ->
  JS.truthy (accessToken st) = false ->
  unauthenticated options st = true.
Proof. intros Ha Ht. unfold unauthenticated. rewrite Ha, Ht. reflexivity. Qed.

End Request.

(** ** The token precondition *)

(** C1: a call to [request] with [authenticated] true (the default) while no
    session token is held fails at once with the error of status 401 and
    message 'Not authenticated'; the client state, and with it the log of
    [fetch] calls, is untouched. *)
Theorem request_without_token_fails_locally
    (P : Platform) (path : string) (options : RequestOptions) (st : Client) :
  authenticatedOf options = true ->
  JS.truthy (accessToken st) = false ->
  request P path options st
  = (inl (ApiError "Not authenticated" (Some 401) VUndefined), st)
  /\ network (snd (request P path options st)) = network st.
Proof.
  intros Hauth Htoken.
  rewrite (request_blocked P path options st)
    by (apply unauthenticated_no_token; assumption).
  split; reflexivity.
Qed.

Lemma request_without_token_fails_locally_witness :
  authenticatedOf noOptions = true /\
  JS.truthy (accessToken Sample.signedOut) = false /\
  request (Sample.server (inr Sample.noContent)) "/admin/commodities"
    noOptions Sample.signedOut
  = (inl (ApiError "Not authenticated" (Some 401) VUndefined), Sample.signedOut).
Proof.
  split; [reflexivity | split; [reflexivity |]].
  apply (request_without_token_fails_locally
           (Sample.server (inr Sample.noContent)) "/admin/commodities"
           noOptions Sample.signedOut); reflexivity.
Defined.

(** ** Authentication rejections *)

(** C2, as the code has it: when a request is answered with status 401 or
    403 and the payload of that answer is read without error, [request]
    raises its [ApiError] in a state where the token is cleared (the variable
    is [null] and the storage key is gone); any authenticated call made from
    that state fails with the local 'Not authenticated' error and sends
    nothing. *)
Theorem auth_rejection_clears_token
    (P : Platform) (path : string) (options : RequestOptions) (st : Client)
    (call : FetchCall) (response : Response) (payload : value) :
  fetchCall P path options st = inr call ->
  fetch P (network st) call = inr response ->
  status response = 401 \/ status response = 403 ->
  readPayload response = inr payload ->
  exists message st',
    request P path options st
    = (inl (ApiError message (Some (status response)) payload), st') /\
    accessToken st' = VNull /\
    storedToken st' = None /\
    forall path' options',
      authenticatedOf options' = true ->
      request P path' options' st' = (inl notAuthenticated, st').
Proof.
  intros Hcall Hfetch Hstatus Hread.
  assert (Hok : ok response = false)
    by (unfold ok; destruct Hstatus as [-> | ->]; reflexivity).
  assert (Hrej : (status response =? 401) || (status response =? 403) = true)
    by (destruct Hstatus as [-> | ->]; reflexivity).
  rewrite (request_sent P path options st call response Hcall Hfetch), Hread.
  rewrite settle_failure by exact Hok. rewrite Hrej.
  eexists. eexists. split; [reflexivity |].
  split; [apply persistToken_accessToken |].
  split; [apply persistToken_null_stored |].
  intros path' options' Hauth. apply request_blocked.
  apply unauthenticated_no_token; [exact Hauth |].
  rewrite persistToken_accessToken. reflexivity.
Qed.

Lemma auth_rejection_clears_token_witness :
  exists message st',
    request (Sample.server (inr (Sample.jsonResponse 401 Sample.expired)))
      "/admin/commodities" noOptions Sample.signedIn
    = (inl (ApiError message (Some 401) Sample.expired), st') /\
    accessToken st' = VNull /\
    storedToken st' = None /\
    forall path' options',
      authenticatedOf options' = true ->
      request (Sample.server (inr (Sample.jsonResponse 401 Sample.expired)))
        path' options' st'
      = (inl notAuthenticated, st').
Proof.
  eapply (auth_rejection_clears_token
            (Sample.server (inr (Sample.jsonResponse 401 Sample.expired)))
            "/admin/commodities" noOptions Sample.signedIn _
            (Sample.jsonResponse 401 Sample.expired) Sample.expired).
  - reflexivity.
  - reflexivity.
  - left. reflexivity.
  - reflexivity.
Defined.

(** C2 fails as stated: a 401 answer that announces JSON and has an empty
    body makes [response.json()] reject before the status is looked at, so
    the token stays where it was, in the variable and in the storage, and the
    next authenticated call goes out to the network with it. *)
Lemma unreadable_rejection_keeps_token :
  let P := Sample.server (inr (Sample.unreadable 401)) in
  let st' := snd (request P "/admin/commodities" noOptions Sample.signedIn) in
  status (Sample.unreadable 401) = 401 /\
  fst (request P "/admin/commodities" noOptions Sample.signedIn)
  = inl (Native "SyntaxError: Unexpected end of JSON input") /\
  accessToken st' = VStr "tok" /\
  storedToken st' = Some "tok" /\
  fst (request P "/admin/dashboard/summary" noOptions st')
  <> inl notAuthenticated /\
  length (network (snd (request P "/admin/dashboard/summary" noOptions st')))
  = 2%nat.
Proof.
  cbv zeta. repeat split; try reflexivity.
  vm_compute. discriminate.
Qed.

(** ** Successful responses *)

(** C3: for a successful (2xx) response whose payload was parsed as JSON,
    [request] returns the value under 'data' when the payload is an object
    with that key, and the whole payload otherwise. *)
Theorem success_unwraps_data
    (P : Platform) (path : string) (options : RequestOptions) (st : Client)
    (call : FetchCall) (response : Response) (ct : string) (payload : value) :
  fetchCall P path options st = inr call ->
  fetch P (network st) call = inr response ->
  ok response = true ->
  status response <> 204 ->
  contentType response = Some ct ->
  JS.includes "application/json" ct = true ->
  json response = inr payload ->
  (forall x, hasData payload x ->
     fst (request P path options st) = inr x) /\
  ((forall x, ~ hasData payload x) ->
     fst (request P path options st) = inr payload).
Proof.
  intros Hcall Hfetch Hok H204 Hct Hjson Hpayload.
  assert (Hread : readPayload response = inr payload).
  { unfold readPayload. apply Z.eqb_neq in H204. rewrite H204, Hct. simpl.
    destruct ct as [|c ct']; [discriminate Hjson |].
    simpl negb. cbv iota. rewrite Hjson. exact Hpayload. }
  rewrite (request_sent P path options st call response Hcall Hfetch), Hread.
  rewrite settle_success by exact Hok. simpl. split.
  - intros x (o & -> & Hx). simpl.
    rewrite bool_decide_true by (rewrite Hx; eauto). rewrite Hx. reflexivity.
  - intros Hnone. destruct payload; try reflexivity. simpl.
    destruct (o !! "data") as [x|] eqn:Hx.
    + exfalso. apply (Hnone x). exists o. split; [reflexivity | exact Hx].
    + rewrite bool_decide_false by (intros [? ?]; discriminate). reflexivity.
Qed.

Lemma success_unwraps_data_witness :
  fst (request (Sample.server (inr (Sample.jsonResponse 200 (Sample.loginPayload "abc"))))
         "/admin/commodities" noOptions Sample.signedIn)
  = inr (VObj {[ "token" := VStr "abc"; "user" := Sample.alice ]}) /\
  fst (request (Sample.server (inr (Sample.jsonResponse 201 Sample.alice)))
         "/admin/commodities" noOptions Sample.signedIn)
  = inr Sample.alice.
Proof.
  split.
  - eapply (success_unwraps_data
              (Sample.server (inr (Sample.jsonResponse 200 (Sample.loginPayload "abc"))))
              "/admin/commodities" noOptions Sample.signedIn _
              (Sample.jsonResponse 200 (Sample.loginPayload "abc"))
              "application/json; charset=utf-8" (Sample.loginPayload "abc"));
      try reflexivity.
    + simpl. lia.
    + eexists. split; reflexivity.
  - eapply (success_unwraps_data
              (Sample.server (inr (Sample.jsonResponse 201 Sample.alice)))
              "/admin/commodities" noOptions Sample.signedIn _
              (Sample.jsonResponse 201 Sample.alice)
              "application/json; charset=utf-8" Sample.alice);
      try reflexivity.
    + simpl. lia.
    + intros x (o & Ho & Hx). injection Ho as <-. vm_compute in Hx. discriminate.
Defined.

(** ** Failed responses *)

(** C4, as the code has it: when a request is answered with a non-2xx status
    and the payload of that answer is read without error, [request] raises
    an [ApiError] carrying the status, the payload as detail, and a message
    that is the payload's [error.message] string if there is one, else the
    payload's [message] string if there is one, else 'Request failed with
    status N'. *)
Theorem failed_response_raises_ApiError
    (P : Platform) (path : string) (options : RequestOptions) (st : Client)
    (call : FetchCall) (response : Response) (payload : value) :
  fetchCall P path options st = inr call ->
  fetch P (network st) call = inr response ->
  ok response = false ->
  readPayload response = inr payload ->
  exists message,
    fst (request P path options st)
    = inl (ApiError message (Some (status response)) payload) /\
    (forall s, hasErrorMessage payload s -> message = s) /\
    (forall s, (forall s', ~ hasErrorMessage payload s') ->
               hasMessage payload s -> message = s) /\
    ((forall s, ~ hasErrorMessage payload s) ->
     (forall s, ~ hasMessage payload s) ->
     message = "Request failed with status " +:+ JS.decimal (status response)).
Proof.
  intros Hcall Hfetch Hok Hread.
  rewrite (request_sent P path options st call response Hcall Hfetch), Hread.
  rewrite settle_failure by exact Hok. simpl.
  exists (failureMessage response payload). split; [reflexivity |].
  unfold failureMessage. repeat split.
  - intros s (o & e & -> & He & Hs). simpl. rewrite He. simpl. rewrite Hs.
    reflexivity.
  - intros s Hnone (o & -> & Hs). simpl. rewrite Hs. simpl.
    destruct (o !! "error") as [[| | | | | |e|]|] eqn:He; simpl; try reflexivity.
    destruct (e !! "message") as [[| | | |s'| | |]|] eqn:Hs'; simpl;
      try reflexivity.
    exfalso. apply (Hnone s'). exists o, e. auto.
  - intros Hnone1 Hnone2.
    destruct payload as [| | | | | |o|]; simpl; try reflexivity.
    assert (H2 : JS.isString (default VUndefined (o !! "message")) = false).
    { destruct (o !! "message") as [[| | | |s| | |]|] eqn:Hs; simpl;
        try reflexivity.
      exfalso. apply (Hnone2 s). exists o. auto. }
    rewrite H2.
    destruct (o !! "error") as [[| | | | | |e|]|] eqn:He; simpl; try reflexivity.
    destruct (e !! "message") as [[| | | |s'| | |]|] eqn:Hs'; simpl;
      try reflexivity.
    exfalso. apply (Hnone1 s'). exists o, e. auto.
Qed.

Lemma failed_response_raises_ApiError_witness :
  exists message,
    fst (request (Sample.server (inr (Sample.jsonResponse 422 Sample.expired)))
           "/admin/commodities" noOptions Sample.signedIn)
    = inl (ApiError message (Some 422) Sample.expired) /\
    message = "Session expired".
Proof.
  destruct (failed_response_raises_ApiError
              (Sample.server (inr (Sample.jsonResponse 422 Sample.expired)))
              "/admin/commodities" noOptions Sample.signedIn
              _ (Sample.jsonResponse 422 Sample.expired) Sample.expired
              eq_refl eq_refl eq_refl eq_refl)
    as (message & Hraised & Hfirst & _).
  exists message. split; [exact Hraised |].
  apply Hfirst. eexists. eexists. repeat split; reflexivity.
Defined.

(** C4 fails as stated: a 500 answer that announces JSON and has an empty
    body makes [response.json()] reject, and that rejection, which carries
    neither status nor payload, is what [request] raises. *)
Lemma unreadable_failure_raises_no_ApiError :
  let P := Sample.server (inr (Sample.unreadable 500)) in
  ok (Sample.unreadable 500) = false /\
  fst (request P "/admin/commodities" noOptions Sample.signedIn)
  = inl (Native "SyntaxError: Unexpected end of JSON input") /\
  forall message details,
    fst (request P "/admin/commodities" noOptions Sample.signedIn)
    <> inl (ApiError message (Some 500) details).
Proof.
  cbv zeta. repeat split; try reflexivity.
  intros message details. vm_compute. discriminate.
Qed.

(** ** Login *)

Lemma login_unfold P email password st :
  authApi.login P email password st
  = match request P "/auth/login"
            {| opt_method := Some "POST";
               opt_body := VObj {[ "username" := VStr email;
                                   "password" := VStr password ]};
               opt_authenticated := Some false |} st with
    | (inl e, st1) => (inl e, st1)
    | (inr result, st1) =>
        if JS.nullish result then
          (inl (Native ("TypeError: Cannot read properties of "
                        +:+ match result with
                            | VNull => "null"
                            | _ => "undefined"
                            end)), st1)
        else
          match persistToken (JS.prop result "token") st1 with
          | (inl e, st2) => (inl e, st2)
          | (inr _, st2) => (inr result, st2)
          end
    end.
Proof.
  unfold authApi.login, bind.
  destruct (request _ _ _ st) as [[e | result] st1]; [reflexivity |].
  unfold member. destruct (JS.nullish result); [reflexivity |].
  simpl. destruct (persistToken (JS.prop result "token") st1) as [[e | u] st2];
    reflexivity.
Qed.

(** C5, as the code has it: after a successful login whose returned token is
    a non-empty string, that token is held and it is stored under the fixed
    key wherever a storage exists.  An authenticated request made while it is
    held goes out with the Authorization header that [headers.set] keeps for
    'Bearer <token>' (that text without the blanks at its end) when that is
    a valid header value, and otherwise raises a TypeError and sends
    nothing. *)
Theorem login_stores_token
    (P : Platform) (email password : string) (st st' : Client)
    (result : value) (t : string) :
  authApi.login P email password st = (inr result, st') ->
  JS.prop result "token" = VStr t ->
  t <> "" ->
  accessToken st' = VStr t /\
  (is_Some (localStorage st) -> storedToken st' = Some t) /\
  (forall path options st2 kept,
     accessToken st2 = VStr t ->
     authenticatedOf options = true ->
     Headers.stored ("Bearer " +:+ t) = Some kept ->
     exists call,
       network (snd (request P path options st2)) = network st2 ++ [call] /\
       headers call !! "Authorization" = Some kept) /\
  (forall path options st2,
     accessToken st2 = VStr t ->
     authenticatedOf options = true ->
     Headers.stored ("Bearer " +:+ t) = None ->
     exists what, request P path options st2 = (inl (Native what), st2)).
Proof.
  intros Hlogin Htoken Ht.
  rewrite login_unfold in Hlogin.
  match type of Hlogin with
  | context [request P ?p ?o st] =>
      destruct (request P p o st) as [[e | r] st1] eqn:Hreq; [discriminate |];
      destruct (request_success_state P p o st r st1 Hreq) as (c & _ & Hst1)
  end.
  destruct (JS.nullish r) eqn:Hnull; [discriminate |].
  destruct (persistToken (JS.prop r "token") st1) as [[e | []] st2] eqn:Hp;
    [discriminate |].
  injection Hlogin as -> ->. rewrite Htoken in Hp.
  pose proof (persistToken_accessToken (VStr t) st1) as Hheld.
  pose proof (persistToken_string_stored t st1) as Hstored.
  rewrite Hp in Hheld, Hstored. simpl in Hheld, Hstored.
  split; [exact Hheld |]. split; [| split].
  - intros [ls Hls]. unfold storedToken.
    rewrite (Hstored ls Ht) by (rewrite Hst1; exact Hls).
    simpl. apply lookup_insert_eq.
  - intros path options st2' kept Htok Hauth Hkept.
    pose proof (fetchCall_held P path options st2' t Htok Ht Hauth) as Hcall.
    rewrite Hkept in Hcall. eexists. split.
    + apply (request_network P path options st2' _ Hcall).
    + simpl. apply lookup_insert_eq.
  - intros path options st2' Htok Hauth Hnone.
    pose proof (fetchCall_held P path options st2' t Htok Ht Hauth) as Hcall.
    rewrite Hnone in Hcall. eexists.
    apply (request_stopped P path options st2' _ Hcall).
Qed.

Lemma login_stores_token_witness :
  let P := Sample.server (inr (Sample.jsonResponse 200 (Sample.loginPayload "abc"))) in
  let st' := snd (authApi.login P "alice@example.org" "secret" Sample.signedOut) in
  accessToken st' = VStr "abc" /\
  storedToken st' = Some "abc" /\
  exists call,
    network (snd (request P "/admin/commodities" noOptions st'))
    = network st' ++ [call] /\
    headers call !! "Authorization" = Some "Bearer abc".
Proof.
  cbv zeta.
  destruct (login_stores_token
              (Sample.server (inr (Sample.jsonResponse 200 (Sample.loginPayload "abc"))))
              "alice@example.org" "secret" Sample.signedOut
              (snd (authApi.login
                      (Sample.server (inr (Sample.jsonResponse 200 (Sample.loginPayload "abc"))))
                      "alice@example.org" "secret" Sample.signedOut))
              (VObj {[ "token" := VStr "abc"; "user" := Sample.alice ]}) "abc")
    as (Hheld & Hstored & Hnext & _).
  - reflexivity.
  - reflexivity.
  - discriminate.
  - split; [exact Hheld |]. split; [apply Hstored; eexists; reflexivity |].
    apply Hnext; [exact Hheld | reflexivity | reflexivity].
Defined.

(** What [headers.set] makes of the bearer text after a login: a token
    returned with a blank at its end goes out without it, and a token with a
    line feed inside makes the next authenticated request raise before
    anything is sent. *)
Example login_with_unclean_token :
  let lf := String (ascii_of_nat 10) EmptyString in
  let P1 := Sample.server (inr (Sample.jsonResponse 200 (Sample.loginPayload "tok "))) in
  let st1 := snd (authApi.login P1 "alice@example.org" "secret" Sample.signedOut) in
  let P2 := Sample.server
              (inr (Sample.jsonResponse 200 (Sample.loginPayload ("a" +:+ lf +:+ "b")))) in
  let st2 := snd (authApi.login P2 "alice@example.org" "secret" Sample.signedOut) in
  accessToken st1 = VStr "tok " /\
  (exists call,
     fetchCall P1 "/admin/commodities" noOptions st1 = inr call /\
     headers call !! "Authorization" = Some "Bearer tok") /\
  accessToken st2 = VStr ("a" +:+ lf +:+ "b") /\
  request P2 "/admin/commodities" noOptions st2
  = (inl (Native "TypeError: Invalid header value"), st2).
Proof.
  cbv zeta. split; [reflexivity |]. split; [| split; reflexivity].
  eexists. split; reflexivity.
Qed.

(** C5 fails as stated: a login answered with an empty token succeeds, yet
    the empty string counts as no token: nothing is stored under the key, and
    the next authenticated request fails locally with 'Not authenticated'
    instead of going out with an Authorization header. *)
Lemma login_with_empty_token_stores_nothing :
  let P := Sample.server (inr (Sample.jsonResponse 200 (Sample.loginPayload ""))) in
  let st' := snd (authApi.login P "alice@example.org" "secret" Sample.signedOut) in
  fst (authApi.login P "alice@example.org" "secret" Sample.signedOut)
  = inr (VObj {[ "token" := VStr ""; "user" := Sample.alice ]}) /\
  storedToken st' = None /\
  request P "/admin/commodities" noOptions st' = (inl notAuthenticated, st') /\
  length (network st') = 1%nat.
Proof.
  cbv zeta. repeat split; reflexivity.
Qed.

(** ** Request encoding *)

(** C6: the call of a request that goes out is the one call it makes; it
    carries 'Accept: application/json'; a form-data body is handed over as
    it is with no Content-Type header; a string body is handed over as it is
    and any other body is serialised with [JSON.stringify], both with
    'Content-Type: application/json'. *)
Theorem request_encodes_body
    (P : Platform) (path : string) (options : RequestOptions) (st : Client)
    (call : FetchCall) :
  fetchCall P path options st = inr call ->
  network (snd (request P path options st)) = network st ++ [call] /\
  headers call !! "Accept" = Some "application/json" /\
  (forall entries,
     opt_body options = VFormData entries ->
     body call = Some (BodyFormData entries) /\
     headers call !! "Content-Type" = None) /\
  (forall s,
     opt_body options = VStr s ->
     body call = Some (BodyString s) /\
     headers call !! "Content-Type" = Some "application/json") /\
  (JS.nullish (opt_body options) = false ->
   isFormData (opt_body options) = false ->
   JS.isString (opt_body options) = false ->
   body call = Some (BodyString (JSON_stringify P (opt_body options))) /\
   headers call !! "Content-Type" = Some "application/json").
Proof.
  intros Hcall.
  split; [apply request_network; exact Hcall |].
  rewrite (fetchCall_body P path options st call Hcall).
  rewrite !(fetchCall_header P path options st call _ Hcall) by discriminate.
  unfold encodeBody.
  split; [| split; [| split]].
  - destruct (opt_body options); reflexivity.
  - intros entries ->. split; reflexivity.
  - intros s ->. split; reflexivity.
  - intros Hnull Hform Hstr.
    destruct (opt_body options); try discriminate; split; reflexivity.
Qed.

Lemma request_encodes_body_witness :
  let P := Sample.server (inr Sample.noContent) in
  let options := {| opt_method := Some "PUT";
                    opt_body := VObj {[ "price_usd" := VNum (Num "12") ]};
                    opt_authenticated := None |} in
  exists call,
    fetchCall P "/admin/commodities/7/price" options Sample.signedIn = inr call /\
    network (snd (request P "/admin/commodities/7/price" options Sample.signedIn))
    = network Sample.signedIn ++ [call] /\
    headers call !! "Accept" = Some "application/json" /\
    body call
    = Some (BodyString
              (Sample.stringify (VObj {[ "price_usd" := VNum (Num "12") ]}))) /\
    headers call !! "Content-Type" = Some "application/json".
Proof.
  cbv zeta. eexists. split; [reflexivity |].
  edestruct (request_encodes_body
               (Sample.server (inr Sample.noContent)) "/admin/commodities/7/price"
               {| opt_method := Some "PUT";
                  opt_body := VObj {[ "price_usd" := VNum (Num "12") ]};
                  opt_authenticated := None |}
               Sample.signedIn _ eq_refl)
    as (Hsent & Haccept & _ & _ & Hother).
  split; [exact Hsent |]. split; [exact Haccept |].
  apply Hother; reflexivity.
Defined.

(** ** Reading the payload *)

(** C7: a response of status 204 makes [request] return [null] whatever its
    content type and whatever its body readers would do; for any other status
    the payload is what [response.json()] settles to when the content type
    contains 'application/json', and the string [response.text()] settles to
    otherwise. *)
Theorem payload_follows_status_and_content_type
    (P : Platform) (path : string) (options : RequestOptions) (st : Client)
    (call : FetchCall) (response : Response) :
  fetchCall P path options st = inr call ->
  fetch P (network st) call = inr response ->
  let sent := logged st call in
  (status response = 204 ->
   request P path options st = (inr VNull, sent)) /\
  (status response <> 204 ->
   (exists ct, contentType response = Some ct /\
               JS.includes "application/json" ct = true) ->
   request P path options st
   = match json response with
     | inr v => settle response v sent
     | inl e => (inl (Native e), sent)
     end) /\
  (status response <> 204 ->
   (forall ct, contentType response = Some ct ->
               JS.includes "application/json" ct = false) ->
   request P path options st
   = match text response with
     | inr s => settle response (VStr s) sent
     | inl e => (inl (Native e), sent)
     end).
Proof.
  intros Hcall Hfetch sent. subst sent.
  rewrite (request_sent P path options st call response Hcall Hfetch).
  unfold readPayload. split; [| split].
  - intros H204. rewrite H204. simpl.
    rewrite settle_success by (unfold ok; rewrite H204; reflexivity).
    reflexivity.
  - intros H204 (ct & Hct & Hjson). apply Z.eqb_neq in H204.
    rewrite H204, Hct. simpl.
    destruct ct as [|c ct']; [discriminate Hjson |].
    simpl negb. cbv iota. rewrite Hjson. reflexivity.
  - intros H204 Htext. apply Z.eqb_neq in H204. rewrite H204. simpl.
    destruct (contentType response) as [ct|].
    + rewrite (Htext ct eq_refl), andb_false_r.
      destruct (text response); reflexivity.
    + destruct (text response); reflexivity.
Qed.

Lemma payload_follows_status_and_content_type_witness :
  exists call,
    fetchCall (Sample.server (inr Sample.noContent)) "/admin/commodities/7"
      {| opt_method := Some "DELETE"; opt_body := VUndefined;
         opt_authenticated := None |} Sample.signedIn
    = inr call /\
    request (Sample.server (inr Sample.noContent)) "/admin/commodities/7"
      {| opt_method := Some "DELETE"; opt_body := VUndefined;
         opt_authenticated := None |} Sample.signedIn
    = (inr VNull, logged Sample.signedIn call) /\
    fst (request (Sample.server (inr (Sample.textResponse 200 "pong"))) "/health"
           noOptions Sample.signedIn)
    = inr (VStr "pong").
Proof.
  eexists. split; [reflexivity |]. split.
  - eapply (payload_follows_status_and_content_type
              (Sample.server (inr Sample.noContent)) "/admin/commodities/7"
              {| opt_method := Some "DELETE"; opt_body := VUndefined;
                 opt_authenticated := None |} Sample.signedIn _ Sample.noContent);
      reflexivity.
  - edestruct (payload_follows_status_and_content_type
                 (Sample.server (inr (Sample.textResponse 200 "pong"))) "/health"
                 noOptions Sample.signedIn _ (Sample.textResponse 200 "pong")
                 eq_refl eq_refl) as (_ & _ & Htext).
    rewrite Htext.
    + reflexivity.
    + simpl. lia.
    + intros ct Hct. injection Hct as <-. reflexivity.
Defined.

(** ** Session probe and logout *)





(** ** Currency rates *)

(** C10, as the code has it: [getRates] returns an empty record and sends
    nothing when [symbols] is not an array or is an empty array; and it
    returns an empty record when the call for the joined symbols succeeds
    with a result that is neither [null] nor [undefined] and has no 'rates'
    field. *)
Theorem getRates_defaults_to_empty_record
    (P : Platform) (base : option string) (symbols : value) (st : Client) :
  (JS.isArray symbols = false \/ symbols = VArr [] ->
   currencyApi.getRates P base symbols st = (inr (VObj ∅), st)) /\
  (forall items joined response,
     symbols = VArr items ->
     items <> [] ->
     JS.join "," items = Some joined ->
     fst (request P (currencyApi.ratesPath P base joined) currencyApi.publicOptions st) = inr response ->
     JS.nullish response = false ->
     (forall o, response = VObj o -> o !! "rates" = None) ->
     fst (currencyApi.getRates P base symbols st) = inr (VObj ∅)).
Proof.
  split.
  - intros [Hnot | ->]; [| reflexivity].
    destruct symbols; try reflexivity. discriminate.
  - intros items joined response -> Hitems Hjoin Hreq Hdefined Hlacks.
    unfold currencyApi.getRates.
    destruct items as [|s rest]; [contradiction |].
    replace (Z.of_nat (length (s :: rest)) =? 0) with false
      by (symmetry; apply Z.eqb_neq; simpl length; lia).
    rewrite Hjoin. unfold bind.
    destruct (request P (currencyApi.ratesPath P base joined) currencyApi.publicOptions st)
      as [[e | r] st1]; simpl in Hreq; [discriminate |].
    injection Hreq as ->. unfold member. rewrite Hdefined. simpl.
    destruct response as [| | | | | |o|]; try reflexivity.
    simpl. rewrite (Hlacks o eq_refl). reflexivity.
Qed.

Lemma getRates_defaults_to_empty_record_witness :
  let P := Sample.server (inr (Sample.jsonResponse 200
                                 (VObj {[ "base_currency" := VStr "USD" ]}))) in
  currencyApi.getRates P (Some "USD") (VArr []) Sample.signedOut
  = (inr (VObj ∅), Sample.signedOut) /\
  currencyApi.getRates P None VUndefined Sample.signedOut
  = (inr (VObj ∅), Sample.signedOut) /\
  fst (currencyApi.getRates P None (VArr [VStr "ZAR"; VStr "EUR"]) Sample.signedOut)
  = inr (VObj ∅).
Proof.
  cbv zeta. split; [| split].
  - apply (getRates_defaults_to_empty_record
             (Sample.server (inr (Sample.jsonResponse 200
                                    (VObj {[ "base_currency" := VStr "USD" ]}))))
             (Some "USD") (VArr []) Sample.signedOut).
    right. reflexivity.
  - apply (getRates_defaults_to_empty_record
             (Sample.server (inr (Sample.jsonResponse 200
                                    (VObj {[ "base_currency" := VStr "USD" ]}))))
             None VUndefined Sample.signedOut).
    left. reflexivity.
  - apply (proj2 (getRates_defaults_to_empty_record
                    (Sample.server (inr (Sample.jsonResponse 200
                                           (VObj {[ "base_currency" := VStr "USD" ]}))))
                    None (VArr [VStr "ZAR"; VStr "EUR"]) Sample.signedOut)
             [VStr "ZAR"; VStr "EUR"] "ZAR,EUR"
             (VObj {[ "base_currency" := VStr "USD" ]})).
    + reflexivity.
    + discriminate.
    + reflexivity.
    + reflexivity.
    + reflexivity.
    + intros o [= <-]. reflexivity.
Defined.

(** C10 fails as stated: a successful answer with no content (status 204)
    has no 'rates' field, and [getRates] then reads a property of [null] and
    raises a TypeError instead of returning an empty record. *)
Lemma getRates_on_empty_answer_raises :
  let P := Sample.server (inr Sample.noContent) in
  ok Sample.noContent = true /\
  fst (request P (currencyApi.ratesPath P None "ZAR") currencyApi.publicOptions Sample.signedOut)
  = inr VNull /\
  fst (currencyApi.getRates P None (VArr [VStr "ZAR"]) Sample.signedOut)
  = inl (Native "TypeError: Cannot read properties of null") /\
  fst (currencyApi.getRates P None (VArr [VStr "ZAR"]) Sample.signedOut)
  <> inr (VObj ∅).
Proof.
  cbv zeta. repeat split; try reflexivity.
  vm_compute. discriminate.
Qed.

(** * Further properties of the client *)

(** ** The base URL and the resolved URL *)

Lemma normaliseBaseUrl_app_slash s : normaliseBaseUrl (s +:+ "/") = s.
Proof.
  induction s as [|c s IH]; [reflexivity |].
  change (String c s +:+ "/") with (String c (s +:+ "/")).
  cbn [normaliseBaseUrl]. rewrite IH.
  replace (String.eqb (s +:+ "/") "") with false
    by (destruct s; reflexivity).
  rewrite andb_false_r. reflexivity.
Qed.

Lemma normaliseBaseUrl_cases s :
  normaliseBaseUrl s = s \/ s = normaliseBaseUrl s +:+ "/".
Proof.
  induction s as [|c s IH]; [left; reflexivity |].
  cbn [normaliseBaseUrl].
  destruct (Ascii.eqb_spec c "/") as [-> | Hc];
    destruct (String.eqb_spec s "") as [-> | Hs]; simpl.
  - right. reflexivity.
  - destruct IH as [-> | IH]; [left; reflexivity |].
    right. change (String "/" s = String "/" (normaliseBaseUrl s +:+ "/")).
    f_equal. exact IH.
  - left. reflexivity.
  - destruct IH as [-> | IH]; [left; reflexivity |].
    right. change (String c s = String c (normaliseBaseUrl s +:+ "/")).
    f_equal. exact IH.
Qed.

Lemma prefix_leading_slash p : String.prefix "/" ("/" +:+ p) = true.
Proof. destruct p; reflexivity. Qed.

(** X1: [normaliseBaseUrl] removes one trailing slash and nothing else: a
    URL written with a slash at its end loses that slash, and the result is
    always the URL itself or the URL without its last slash. *)
Theorem normaliseBaseUrl_strips_one_trailing_slash (s : string) :
  normaliseBaseUrl (s +:+ "/") = s /\
  (normaliseBaseUrl s = s \/ s = normaliseBaseUrl s +:+ "/").
Proof.
  split; [apply normaliseBaseUrl_app_slash | apply normaliseBaseUrl_cases].
Qed.

Lemma normaliseBaseUrl_no_slash s :
  endsWithSlash s = false -> normaliseBaseUrl s = s.
Proof.
  induction s as [|c s IH]; [reflexivity |].
  cbn [endsWithSlash normaliseBaseUrl].
  destruct (String.eqb_spec s "") as [-> | Hs].
  - intros ->. reflexivity.
  - intros H. rewrite andb_false_r, (IH H). reflexivity.
Qed.

(** X2: the resolved URL is the base, one slash, and the path without its
    leading slash, if it has one.  The base is the configured one as it is
    when it does not end in a slash, the configured one without its last
    slash when it does, and 'http://localhost:3001' when none is
    configured. *)
Theorem resolveUrl_joins_base_and_path (P : Platform) (b p : string) :
  String.prefix "/" p = false ->
  (endsWithSlash b = false ->
   resolveUrl (withBaseUrl (Some b) P) p = b +:+ "/" +:+ p /\
   resolveUrl (withBaseUrl (Some b) P) ("/" +:+ p) = b +:+ "/" +:+ p) /\
  resolveUrl (withBaseUrl (Some (b +:+ "/")) P) p = b +:+ "/" +:+ p /\
  resolveUrl (withBaseUrl (Some (b +:+ "/")) P) ("/" +:+ p) = b +:+ "/" +:+ p /\
  resolveUrl (withBaseUrl None P) p = "http://localhost:3001/" +:+ p /\
  resolveUrl (withBaseUrl None P) ("/" +:+ p) = "http://localhost:3001/" +:+ p.
Proof.
  intros Hp. unfold resolveUrl, API_BASE_URL. simpl VITE_API_BASE_URL.
  simpl default. rewrite normaliseBaseUrl_app_slash, Hp, prefix_leading_slash.
  split; [| repeat split; reflexivity].
  intros Hb. rewrite (normaliseBaseUrl_no_slash b Hb). split; reflexivity.
Qed.

Lemma resolveUrl_joins_base_and_path_witness :
  resolveUrl (withBaseUrl (Some "https://api.example.org")
                (Sample.server (inr Sample.noContent))) "auth/me"
  = "https://api.example.org/auth/me" /\
  resolveUrl (withBaseUrl (Some "https://api.example.org/")
                (Sample.server (inr Sample.noContent))) "/auth/me"
  = "https://api.example.org/auth/me" /\
  resolveUrl (withBaseUrl None (Sample.server (inr Sample.noContent))) "/auth/me"
  = "http://localhost:3001/auth/me".
Proof.
  destruct (resolveUrl_joins_base_and_path
              (Sample.server (inr Sample.noContent))
              "https://api.example.org" "auth/me" eq_refl)
    as (Hplain & _ & Hslash & _ & Hdefault).
  split; [apply Hplain; reflexivity |].
  split; [exact Hslash | exact Hdefault].
Defined.

(** ** What a request does to the client state *)

Lemma request_final_state P path options st :
  snd (request P path options st)
  = match fetchCall P path options st with
    | inl _ => st
    | inr call =>
        match fetch P (network st) call with
        | inl _ => logged st call
        | inr response =>
            match readPayload response with
            | inl _ => logged st call
            | inr _ =>
                if (status response =? 401) || (status response =? 403)
                then snd (persistToken VNull (logged st call))
                else logged st call
            end
        end
    end.
Proof.
  destruct (fetchCall P path options st) as [e | call] eqn:Hcall.
  { rewrite (request_stopped P path options st e Hcall). reflexivity. }
  destruct (fetch P (network st) call) as [e | response] eqn:Hfetch.
  { rewrite (request_fetch_rejected P path options st call e Hcall Hfetch).
    reflexivity. }
  rewrite (request_sent P path options st call response Hcall Hfetch).
  destruct (readPayload response) as [e | payload]; [reflexivity |].
  destruct (ok response) eqn:Hok.
  - rewrite settle_success by exact Hok. simpl.
    replace ((status response =? 401) || (status response =? 403)) with false;
      [reflexivity |].
    unfold ok in Hok. apply andb_prop in Hok as [_ Hle].
    apply Z.leb_le in Hle. symmetry. apply orb_false_intro; apply Z.eqb_neq; lia.
  - rewrite settle_failure by exact Hok. reflexivity.
Qed.

Lemma persistToken_synced token st :
  fst (persistToken token st) = inr tt -> synced (snd (persistToken token st)).
Proof.
  unfold synced, persistToken. intros Hreturned ls.
  destruct (localStorage st) as [ls0|]; [| simpl; discriminate].
  destruct (JS.truthy token) eqn:Ht;
    [destruct (JS.toString token) as [written|] eqn:Hs; [| discriminate] |];
    simpl; intros [= <-]; split.
  - intros _. exists written. split; [exact Hs | apply lookup_insert_eq].
  - intros t. rewrite lookup_insert_eq. congruence.
  - intros Htrue. congruence.
  - intros t. rewrite lookup_delete_eq. discriminate.
Qed.

Lemma persistToken_null_synced st : synced (snd (persistToken VNull st)).
Proof. apply persistToken_synced, persistToken_null_result. Qed.

Lemma logged_synced st call : synced st -> synced (logged st call).
Proof. intros H. exact H. Qed.

Lemma initialClient_synced storage : synced (initialClient storage).
Proof.
  unfold synced, initialClient. simpl. intros ls ->.
  destruct (ls !! TOKEN_STORAGE_KEY) as [t|]; simpl.
  - split; [intros _; exists t; split; reflexivity | congruence].
  - split; discriminate.
Qed.

(** *** Operations that keep a property of the state *)

Create HintDb keeps discriminated.

Lemma preserves_ret {A} I (a : A) : preserves I (ret a).
Proof. intros st H. exact H. Qed.

Lemma preserves_throw {A} I e : preserves I (@throw A e).
Proof. intros st H. exact H. Qed.

Lemma preserves_readToken I : preserves I readToken.
Proof. intros st H. exact H. Qed.

Lemma preserves_member I v k : preserves I (member v k).
Proof. intros st H. unfold member. destruct (JS.nullish v); exact H. Qed.

Lemma preserves_bind {A B} I (m : M A) (k : A -> M B) :
  preserves I m -> (forall a, preserves I (k a)) -> preserves I (bind m k).
Proof.
  intros Hm Hk st H. unfold bind. specialize (Hm st H).
  destruct (m st) as [[e | a] st']; [exact Hm | apply Hk; exact Hm].
Qed.

Lemma preserves_tryCatch {A} I (m : M A) (h : exn -> M A) :
  preserves I m -> (forall e, preserves I (h e)) -> preserves I (tryCatch m h).
Proof.
  intros Hm Hh st H. unfold tryCatch. specialize (Hm st H).
  destruct (m st) as [[e | a] st']; [apply Hh; exact Hm | exact Hm].
Qed.

Lemma preserves_tryFinally {A} I (m : M A) (f : M unit) :
  preserves I m -> preserves I f -> preserves I (tryFinally m f).
Proof.
  intros Hm Hf st H. unfold tryFinally. specialize (Hm st H).
  destruct (m st) as [r st']. specialize (Hf st' Hm).
  destruct (f st') as [[e | u] st'']; exact Hf.
Qed.

Lemma preserves_if {A} I (b : bool) (m1 m2 : M A) :
  preserves I m1 -> preserves I m2 -> preserves I (if b then m1 else m2).
Proof. destruct b; auto. Qed.

Lemma preserves_synced_clear : preserves synced (persistToken VNull).
Proof. intros st _. apply persistToken_null_synced. Qed.

Lemma preserves_synced_request P path options :
  preserves synced (request P path options).
Proof.
  intros st H. rewrite request_final_state.
  destruct (fetchCall P path options st) as [e | call]; [exact H |].
  destruct (fetch P (network st) call) as [e | response]; [exact H |].
  destruct (readPayload response); [exact H |].
  destruct ((status response =? 401) || (status response =? 403));
    [apply persistToken_null_synced | exact H].
Qed.

Lemma login_returned_synced P email password st result st' :
  synced st ->
  authApi.login P email password st = (inr result, st') ->
  synced st'.
Proof.
  intros Hst Hlogin. rewrite login_unfold in Hlogin.
  match type of Hlogin with
  | context [request P ?p ?o st] =>
      pose proof (preserves_synced_request P p o st Hst) as Hreq;
      destruct (request P p o st) as [[e | r] st1]; [discriminate |]
  end.
  destruct (JS.nullish r); [discriminate |].
  pose proof (persistToken_synced (JS.prop r "token") st1) as Hp.
  destruct (persistToken (JS.prop r "token") st1) as [[e | []] st2];
    [discriminate |].
  injection Hlogin as <- <-. apply Hp. reflexivity.
Qed.

#[local] Hint Resolve preserves_ret preserves_throw preserves_readToken
  preserves_member : keeps.

Ltac keeps :=
  repeat first
    [ apply preserves_synced_request
    | apply preserves_synced_clear
    | apply preserves_bind; [| intro]
    | apply preserves_tryCatch; [| intro]
    | apply preserves_tryFinally
    | apply preserves_if
    | match goal with
      | |- preserves _ (match ?x with _ => _ end) => destruct x
      end
    | solve [auto with keeps] ].

Ltac conjuncts :=
  repeat match goal with
         | |- _ /\ _ => split
         | |- forall _, _ => intro
         end.

(** X3: a token written by [persistToken] is the token the module starts
    with after a reload, and after [persistToken(null)] the module starts
    with none; without a [window] nothing survives a reload. *)
Theorem token_survives_reload (t : string) (st : Client) :
  t <> "" ->
  (is_Some (localStorage st) ->
   accessToken (initialClient (localStorage (snd (persistToken (VStr t) st))))
   = VStr t) /\
  (localStorage st = None ->
   accessToken (initialClient (localStorage (snd (persistToken (VStr t) st))))
   = VNull) /\
  accessToken (initialClient (localStorage (snd (persistToken VNull st))))
  = VNull.
Proof.
  intros Ht. unfold persistToken, initialClient.
  split; [| split].
  - intros [ls ->]. simpl. destruct (String.eqb_spec t ""); [contradiction |].
    simpl. rewrite lookup_insert_eq. reflexivity.
  - intros ->. reflexivity.
  - destruct (localStorage st) as [ls|]; simpl; [| reflexivity].
    rewrite lookup_delete_eq. reflexivity.
Qed.

Lemma token_survives_reload_witness :
  accessToken
    (initialClient (localStorage (snd (persistToken (VStr "abc") Sample.signedOut))))
  = VStr "abc" /\
  accessToken
    (initialClient (localStorage (snd (persistToken (VStr "abc") (initialClient None)))))
  = VNull.
Proof.
  destruct (token_survives_reload "abc" Sample.signedOut)
    as (Hbrowser & _ & _); [discriminate |].
  destruct (token_survives_reload "abc" (initialClient None))
    as (_ & Hnone & _); [discriminate |].
  split; [apply Hbrowser; eexists; reflexivity | apply Hnone; reflexivity].
Defined.

(** X4: the variable and the storage do not come to disagree while the
    operations return.  The module starts in agreement; [persistToken]
    establishes it whenever it returns, and always for [null]; [request] and
    every operation but [login] keep it whether they return or raise; and
    [login] keeps it whenever it returns. *)
Theorem storage_and_variable_stay_synced (P : Platform) :
  (forall storage, synced (initialClient storage)) /\
  (forall token st,
     fst (persistToken token st) = inr tt ->
     synced (snd (persistToken token st))) /\
  (forall st, synced (snd (persistToken VNull st))) /\
  (forall path options, preserves synced (request P path options)) /\
  (forall email password st result st',
     synced st ->
     authApi.login P email password st = (inr result, st') ->
     synced st') /\
  preserves synced (authApi.me P) /\
  preserves synced (authApi.logout P) /\
  (forall base symbols, preserves synced (currencyApi.getRates P base symbols)) /\
  preserves synced (adminApi.getCommodities P) /\
  (forall payload, preserves synced (adminApi.createCommodity P payload)) /\
  (forall id payload, preserves synced (adminApi.updateCommodity P id payload)) /\
  (forall id, preserves synced (adminApi.deleteCommodity P id)) /\
  (forall id payload, preserves synced (adminApi.updatePriceRange P id payload)) /\
  (forall id payload, preserves synced (adminApi.updateCommodityPrice P id payload)) /\
  preserves synced (adminApi.triggerPriceUpdate P) /\
  preserves synced (adminApi.getDashboardSummary P) /\
  (forall limit, preserves synced (adminApi.getPriceUpdateRuns P limit)) /\
  preserves synced (publicApi.getCategories P) /\
  (forall currency, preserves synced (publicApi.getCurrentPrices P currency)).
Proof.
  split; [apply initialClient_synced |].
  split; [apply persistToken_synced |].
  split; [apply persistToken_null_synced |].
  split; [intros; keeps |].
  split; [apply login_returned_synced |].
  conjuncts;
    unfold authApi.me, authApi.logout, currencyApi.getRates,
      adminApi.getCommodities, adminApi.createCommodity,
      adminApi.updateCommodity, adminApi.deleteCommodity,
      adminApi.updatePriceRange, adminApi.updateCommodityPrice,
      adminApi.triggerPriceUpdate, adminApi.getDashboardSummary,
      adminApi.getPriceUpdateRuns, publicApi.getCategories,
      publicApi.getCurrentPrices;
    keeps.
Qed.

Lemma storage_and_variable_stay_synced_witness :
  let P := Sample.server (inr (Sample.jsonResponse 200 (Sample.loginPayload "abc"))) in
  synced Sample.signedOut /\
  synced (snd (authApi.login P "alice@example.org" "secret" Sample.signedOut)) /\
  synced (snd (authApi.logout
                 (Sample.server (inr (Sample.jsonResponse 401 Sample.expired)))
                 Sample.signedIn)).
Proof.
  cbv zeta.
  destruct (storage_and_variable_stay_synced
              (Sample.server (inr (Sample.jsonResponse 200 (Sample.loginPayload "abc")))))
    as (Hinit & _ & _ & _ & Hlogin & _).
  destruct (storage_and_variable_stay_synced
              (Sample.server (inr (Sample.jsonResponse 401 Sample.expired))))
    as (_ & _ & _ & _ & _ & _ & Hlogout & _).
  split; [apply Hinit |].
  split; [| apply Hlogout; apply Hinit].
  eapply (Hlogin "alice@example.org" "secret" Sample.signedOut);
    [apply Hinit | reflexivity].
Defined.

(** *** One call at most *)

Lemma silent_persistToken token n :
  preserves (fun s => network s = n) (persistToken token).
Proof. intros st H. rewrite persistToken_network. exact H. Qed.

Lemma sendsAtMostOne_request P path options :
  sendsAtMostOne (request P path options).
Proof.
  intros st. destruct (fetchCall P path options st) as [e | call] eqn:Hcall.
  - exists []. rewrite (request_stopped P path options st e Hcall).
    simpl. rewrite app_nil_r. split; [reflexivity | lia].
  - exists [call].
    rewrite (request_network P path options st call Hcall).
    split; [reflexivity |]. simpl. lia.
Qed.

Lemma sendsAtMostOne_silent {A} (m : M A) :
  (forall n, preserves (fun s => network s = n) m) -> sendsAtMostOne m.
Proof.
  intros Hm st. exists []. rewrite app_nil_r.
  split; [apply (Hm (network st) st); reflexivity | simpl; lia].
Qed.

Lemma sendsAtMostOne_bind {A B} (m : M A) (k : A -> M B) :
  sendsAtMostOne m ->
  (forall a n, preserves (fun s => network s = n) (k a)) ->
  sendsAtMostOne (bind m k).
Proof.
  intros Hm Hk st. destruct (Hm st) as (calls & Hnet & Hlen).
  exists calls. split; [| exact Hlen]. unfold bind.
  destruct (m st) as [[e | a] st']; [exact Hnet |].
  apply (Hk a (network st ++ calls) st'). exact Hnet.
Qed.

Lemma sendsAtMostOne_tryCatch {A} (m : M A) (h : exn -> M A) :
  sendsAtMostOne m ->
  (forall e n, preserves (fun s => network s = n) (h e)) ->
  sendsAtMostOne (tryCatch m h).
Proof.
  intros Hm Hh st. destruct (Hm st) as (calls & Hnet & Hlen).
  exists calls. split; [| exact Hlen]. unfold tryCatch.
  destruct (m st) as [[e | a] st']; [| exact Hnet].
  apply (Hh e (network st ++ calls) st'). exact Hnet.
Qed.

Lemma sendsAtMostOne_tryFinally {A} (m : M A) (f : M unit) :
  sendsAtMostOne m ->
  (forall n, preserves (fun s => network s = n) f) ->
  sendsAtMostOne (tryFinally m f).
Proof.
  intros Hm Hf st. destruct (Hm st) as (calls & Hnet & Hlen).
  exists calls. split; [| exact Hlen]. unfold tryFinally.
  destruct (m st) as [r st']. simpl in Hnet.
  pose proof (Hf (network st ++ calls) st' Hnet) as H.
  destruct (f st') as [[e | u] st'']; exact H.
Qed.

Lemma sendsAtMostOne_guarded {A} (k : value -> M A) :
  (forall token, sendsAtMostOne (k token)) -> sendsAtMostOne (bind readToken k).
Proof. intros Hk st. exact (Hk (accessToken st) st). Qed.

Ltac silent :=
  repeat first
    [ apply silent_persistToken
    | apply preserves_bind; [| intro]
    | apply preserves_if
    | solve [auto with keeps] ].

Ltac single_call :=
  repeat first
    [ apply sendsAtMostOne_request
    | apply sendsAtMostOne_guarded; intro
    | apply sendsAtMostOne_tryFinally; [| intro; silent]
    | apply sendsAtMostOne_tryCatch; [| intros; silent]
    | apply sendsAtMostOne_bind; [| intros; silent]
    | match goal with
      | |- sendsAtMostOne (match ?b with _ => _ end) => destruct b
      end
    | apply sendsAtMostOne_silent; intro; silent ].

(** X5: nothing is retried.  [request] sends no call when the token guard
    or the setting of the Authorization header stops it, and exactly one
    otherwise, whatever the answer; and every operation of the client sends
    at most one call, whether it returns or raises. *)
Theorem no_operation_sends_twice (P : Platform) :
  (forall path options st,
     network (snd (request P path options st))
     = match fetchCall P path options st with
       | inl _ => network st
       | inr call => network st ++ [call]
       end) /\
  (forall email password, sendsAtMostOne (authApi.login P email password)) /\
  sendsAtMostOne (authApi.me P) /\
  sendsAtMostOne (authApi.logout P) /\
  (forall base symbols, sendsAtMostOne (currencyApi.getRates P base symbols)) /\
  sendsAtMostOne (adminApi.getCommodities P) /\
  (forall payload, sendsAtMostOne (adminApi.createCommodity P payload)) /\
  (forall id payload, sendsAtMostOne (adminApi.updateCommodity P id payload)) /\
  (forall id, sendsAtMostOne (adminApi.deleteCommodity P id)) /\
  (forall id payload, sendsAtMostOne (adminApi.updatePriceRange P id payload)) /\
  (forall id payload, sendsAtMostOne (adminApi.updateCommodityPrice P id payload)) /\
  sendsAtMostOne (adminApi.triggerPriceUpdate P) /\
  sendsAtMostOne (adminApi.getDashboardSummary P) /\
  (forall limit, sendsAtMostOne (adminApi.getPriceUpdateRuns P limit)) /\
  sendsAtMostOne (publicApi.getCategories P) /\
  (forall currency, sendsAtMostOne (publicApi.getCurrentPrices P currency)).
Proof.
  split.
  { intros path options st.
    destruct (fetchCall P path options st) as [e | call] eqn:Hcall.
    - rewrite (request_stopped P path options st e Hcall). reflexivity.
    - apply request_network. exact Hcall. }
  conjuncts;
    unfold authApi.login, authApi.me, authApi.logout, currencyApi.getRates,
      adminApi.getCommodities, adminApi.createCommodity,
      adminApi.updateCommodity, adminApi.deleteCommodity,
      adminApi.updatePriceRange, adminApi.updateCommodityPrice,
      adminApi.triggerPriceUpdate, adminApi.getDashboardSummary,
      adminApi.getPriceUpdateRuns, publicApi.getCategories,
      publicApi.getCurrentPrices;
    single_call.
Qed.

(** X6: only an answer of status 401 or 403 ends the session.  When the
    call is not answered with one of these (any other status, a network
    failure, or no call at all), [request] leaves the token and the storage
    as they were. *)
Theorem request_keeps_session_unless_rejected
    (P : Platform) (path : string) (options : RequestOptions) (st : Client) :
  (forall call response,
     fetchCall P path options st = inr call ->
     fetch P (network st) call = inr response ->
     status response <> 401 /\ status response <> 403) ->
  accessToken (snd (request P path options st)) = accessToken st /\
  localStorage (snd (request P path options st)) = localStorage st.
Proof.
  intros Hstatus. rewrite request_final_state.
  destruct (fetchCall P path options st) as [e | call];
    [split; reflexivity |].
  destruct (fetch P (network st) call) as [e | response] eqn:Hfetch;
    [split; reflexivity |].
  destruct (readPayload response); [split; reflexivity |].
  destruct (Hstatus call response eq_refl Hfetch) as [H401 H403].
  apply Z.eqb_neq in H401, H403. rewrite H401, H403. split; reflexivity.
Qed.

Lemma request_keeps_session_unless_rejected_witness :
  let P := Sample.server (inr (Sample.textResponse 500 "Internal Server Error")) in
  accessToken (snd (request P "/admin/commodities" noOptions Sample.signedIn))
  = VStr "tok" /\
  localStorage (snd (request P "/admin/commodities" noOptions Sample.signedIn))
  = Some {[ TOKEN_STORAGE_KEY := "tok" ]}.
Proof.
  cbv zeta.
  apply (request_keeps_session_unless_rejected
           (Sample.server (inr (Sample.textResponse 500 "Internal Server Error")))
           "/admin/commodities" noOptions Sample.signedIn).
  intros call response _ [= <-]. split; simpl; lia.
Defined.

(** X7: a call that goes out carries no header besides Accept, Content-Type
    and Authorization; a request made with [authenticated: false] carries no
    Authorization header even while a token is held; a request without a
    body ([undefined] or [null]) has no body and no Content-Type. *)
Theorem request_sends_only_its_headers
    (P : Platform) (path : string) (options : RequestOptions) (st : Client)
    (call : FetchCall) :
  fetchCall P path options st = inr call ->
  network (snd (request P path options st)) = network st ++ [call] /\
  (forall k, is_Some (headers call !! k) ->
             k = "Accept" \/ k = "Content-Type" \/ k = "Authorization") /\
  (authenticatedOf options = false ->
   headers call !! "Authorization" = None) /\
  (JS.nullish (opt_body options) = true ->
   body call = None /\ headers call !! "Content-Type" = None).
Proof.
  intros Hcall.
  split; [apply request_network; exact Hcall |].
  split; [| split].
  - intros k Hk.
    destruct (decide (k = "Authorization")) as [-> | Hauth]; [auto |].
    rewrite (fetchCall_header P path options st call k Hcall Hauth) in Hk.
    destruct (decide (k = "Accept")) as [-> | Haccept]; [auto |].
    destruct (decide (k = "Content-Type")) as [-> | Hct]; [auto |].
    exfalso. unfold encodeBody in Hk.
    destruct (negb (JS.nullish (opt_body options)));
      [destruct (opt_body options) |]; simpl in Hk;
      rewrite ?lookup_insert_ne, lookup_singleton_ne in Hk by congruence;
      destruct Hk; discriminate.
  - intros Hauth.
    rewrite (fetchCall_anonymous P path options st Hauth) in Hcall.
    injection Hcall as <-. cbn [headers]. unfold encodeBody.
    destruct (negb (JS.nullish (opt_body options)));
      [destruct (opt_body options) |]; reflexivity.
  - intros Hnull.
    rewrite (fetchCall_body P path options st call Hcall).
    rewrite (fetchCall_header P path options st call _ Hcall) by discriminate.
    unfold encodeBody. rewrite Hnull. split; reflexivity.
Qed.

Lemma request_sends_only_its_headers_witness :
  let P := Sample.server (inr Sample.noContent) in
  exists call,
    network (snd (request P "/commodities/categories"
                    currencyApi.publicOptions Sample.signedIn))
    = network Sample.signedIn ++ [call] /\
    headers call !! "Authorization" = None /\
    body call = None /\
    headers call !! "Content-Type" = None.
Proof.
  cbv zeta. eexists.
  edestruct (request_sends_only_its_headers
               (Sample.server (inr Sample.noContent)) "/commodities/categories"
               currencyApi.publicOptions Sample.signedIn _ eq_refl)
    as (Hsent & _ & Hpublic & Hbody).
  split; [exact Hsent |]. split; [apply Hpublic; reflexivity |].
  apply Hbody. reflexivity.
Defined.

(** ** The administrative and public operations *)

Lemma then_ret_blocked P path options st :
  unauthenticated options st = true ->
  (request P path options ;;; ret tt) st = (inl notAuthenticated, st).
Proof.
  intros Hgo. unfold bind. rewrite (request_blocked P path options st Hgo).
  reflexivity.
Qed.

Lemma then_ret_network P path options st :
  network (snd ((request P path options ;;; ret tt) st))
  = network (snd (request P path options st)).
Proof.
  unfold bind. destruct (request P path options st) as [[e | v] st'];
    reflexivity.
Qed.

Lemma fetchCall_bearer P path verb payload st (t kept : string) :
  accessToken st = VStr t -> t <> "" ->
  Headers.stored ("Bearer " +:+ t) = Some kept ->
  String.prefix "/" path = true ->
  match payload with
  | Some v => JS.nullish v = false /\ isFormData v = false /\ JS.isString v = false
  | None => True
  end ->
  fetchCall P path
    {| opt_method := verb;
       opt_body := default VUndefined payload;
       opt_authenticated := None |} st
  = inr (bearerCall P kept (default "GET" verb) path payload).
Proof.
  intros Htok Ht Hkept Hpath Hpayload.
  rewrite (fetchCall_held P path _ st t Htok Ht) by reflexivity.
  rewrite Hkept.
  unfold bearerCall, resolveUrl, encodeBody. rewrite Hpath.
  cbn [opt_method opt_body].
  destruct payload as [v|]; simpl; [| reflexivity].
  destruct Hpayload as (Hnull & Hform & Hstr). rewrite Hnull. simpl.
  destruct v; try discriminate; reflexivity.
Qed.

Lemma fetchCall_public P path st :
  String.prefix "/" path = true ->
  fetchCall P path
    {| opt_method := None; opt_body := VUndefined;
       opt_authenticated := Some false |} st
  = inr (publicCall P path).
Proof.
  intros Hpath. rewrite fetchCall_anonymous by reflexivity.
  unfold publicCall, resolveUrl. rewrite Hpath. reflexivity.
Qed.

Lemma bind_silent_network {A B} (m : M A) (k : A -> M B) st :
  (forall a n, preserves (fun s => network s = n) (k a)) ->
  network (snd (bind m k st)) = network (snd (m st)).
Proof.
  intros Hk. unfold bind. destruct (m st) as [[e | a] st']; [reflexivity |].
  apply (Hk a (network st') st'). reflexivity.
Qed.

(** X8: without a token every administrative operation fails with the
    local 'Not authenticated' error and leaves the client, and with it the
    log of calls, untouched. *)
Theorem adminApi_requires_token (P : Platform) (st : Client) :
  JS.truthy (accessToken st) = false ->
  adminApi.getCommodities P st = (inl notAuthenticated, st) /\
  (forall payload,
     adminApi.createCommodity P payload st = (inl notAuthenticated, st)) /\
  (forall id payload,
     adminApi.updateCommodity P id payload st = (inl notAuthenticated, st)) /\
  (forall id, adminApi.deleteCommodity P id st = (inl notAuthenticated, st)) /\
  (forall id payload,
     adminApi.updatePriceRange P id payload st = (inl notAuthenticated, st)) /\
  (forall id payload,
     adminApi.updateCommodityPrice P id payload st = (inl notAuthenticated, st)) /\
  adminApi.triggerPriceUpdate P st = (inl notAuthenticated, st) /\
  adminApi.getDashboardSummary P st = (inl notAuthenticated, st) /\
  (forall limit,
     adminApi.getPriceUpdateRuns P limit st = (inl notAuthenticated, st)).
Proof.
  intros Htoken.
  assert (Hgo : forall verb payload,
             unauthenticated
               {| opt_method := verb; opt_body := payload;
                  opt_authenticated := None |} st = true)
    by (intros; apply unauthenticated_no_token; [reflexivity | exact Htoken]).
  conjuncts;
    first [ apply then_ret_blocked; apply Hgo
          | apply request_blocked; apply Hgo ].
Qed.

Lemma adminApi_requires_token_witness :
  adminApi.getCommodities (Sample.server (inr Sample.noContent)) Sample.signedOut
  = (inl notAuthenticated, Sample.signedOut) /\
  adminApi.deleteCommodity (Sample.server (inr Sample.noContent)) "7"
    Sample.signedOut
  = (inl notAuthenticated, Sample.signedOut).
Proof.
  destruct (adminApi_requires_token (Sample.server (inr Sample.noContent))
              Sample.signedOut eq_refl)
    as (Hlist & _ & _ & Hdelete & _).
  split; [exact Hlist | apply Hdelete].
Defined.

(** X9: with a token held whose bearer text is a valid header value, each
    administrative operation sends one call with the Authorization header
    that [headers.set] keeps for it: the listed method and path under the
    base URL, and for the operations that take a payload object that object
    serialised as JSON; [getPriceUpdateRuns] asks for the limit as
    [String] writes it, and for 20 runs when no limit is given. *)
Theorem adminApi_calls (P : Platform) (st : Client) (t kept : string) :
  accessToken st = VStr t ->
  t <> "" ->
  Headers.stored ("Bearer " +:+ t) = Some kept ->
  network (snd (adminApi.getCommodities P st))
  = network st ++ [bearerCall P kept "GET" "/admin/commodities" None] /\
  (forall o,
     network (snd (adminApi.createCommodity P (VObj o) st))
     = network st
       ++ [bearerCall P kept "POST" "/admin/commodities" (Some (VObj o))]) /\
  (forall id o,
     network (snd (adminApi.updateCommodity P id (VObj o) st))
     = network st
       ++ [bearerCall P kept "PUT" ("/admin/commodities/" +:+ id)
             (Some (VObj o))]) /\
  (forall id,
     network (snd (adminApi.deleteCommodity P id st))
     = network st
       ++ [bearerCall P kept "DELETE" ("/admin/commodities/" +:+ id) None]) /\
  (forall id o,
     network (snd (adminApi.updatePriceRange P id (VObj o) st))
     = network st
       ++ [bearerCall P kept "PUT"
             ("/admin/commodities/" +:+ id +:+ "/price-range")
             (Some (VObj o))]) /\
  (forall id o,
     network (snd (adminApi.updateCommodityPrice P id (VObj o) st))
     = network st
       ++ [bearerCall P kept "PUT" ("/admin/commodities/" +:+ id +:+ "/price")
             (Some (VObj o))]) /\
  network (snd (adminApi.triggerPriceUpdate P st))
  = network st ++ [bearerCall P kept "POST" "/admin/prices/update-all" None] /\
  network (snd (adminApi.getDashboardSummary P st))
  = network st ++ [bearerCall P kept "GET" "/admin/dashboard/summary" None] /\
  (forall limit,
     network (snd (adminApi.getPriceUpdateRuns P limit st))
     = network st
       ++ [bearerCall P kept "GET"
             ("/admin/price-update-runs?" +:+
              URLSearchParams_toString P
                [("limit", JS.numberToString (default (Num "20") limit))])
             None]).
Proof.
  intros Htok Ht Hkept.
  assert (Hobj : forall o : gmap string value,
             JS.nullish (VObj o) = false /\ isFormData (VObj o) = false /\
             JS.isString (VObj o) = false) by (intros; repeat split).
  conjuncts;
    unfold adminApi.getCommodities, adminApi.createCommodity,
      adminApi.updateCommodity, adminApi.deleteCommodity,
      adminApi.updatePriceRange, adminApi.updateCommodityPrice,
      adminApi.triggerPriceUpdate, adminApi.getDashboardSummary,
      adminApi.getPriceUpdateRuns, noOptions;
    rewrite ?then_ret_network; apply request_network.
  - apply (fetchCall_bearer P _ None None st t kept); auto using prefix_leading_slash.
  - apply (fetchCall_bearer P _ (Some "POST") (Some (VObj o)) st t kept); auto using prefix_leading_slash.
  - apply (fetchCall_bearer P _ (Some "PUT") (Some (VObj o)) st t kept); auto using prefix_leading_slash.
  - apply (fetchCall_bearer P _ (Some "DELETE") None st t kept); auto using prefix_leading_slash.
  - apply (fetchCall_bearer P _ (Some "PUT") (Some (VObj o)) st t kept); auto using prefix_leading_slash.
  - apply (fetchCall_bearer P _ (Some "PUT") (Some (VObj o)) st t kept); auto using prefix_leading_slash.
  - apply (fetchCall_bearer P _ (Some "POST") None st t kept); auto using prefix_leading_slash.
  - apply (fetchCall_bearer P _ None None st t kept); auto using prefix_leading_slash.
  - apply (fetchCall_bearer P _ None None st t kept); auto using prefix_leading_slash.
Qed.

Lemma adminApi_calls_witness :
  let P := Sample.server (inr Sample.noContent) in
  network (snd (adminApi.deleteCommodity P "7" Sample.signedIn))
  = network Sample.signedIn
    ++ [bearerCall P "Bearer tok" "DELETE" ("/admin/commodities/" +:+ "7") None] /\
  network (snd (adminApi.getPriceUpdateRuns P None Sample.signedIn))
  = network Sample.signedIn
    ++ [bearerCall P "Bearer tok" "GET"
          ("/admin/price-update-runs?" +:+
           URLSearchParams_toString P
             [("limit", JS.numberToString (default (Num "20") None))])
          None] /\
  network (snd (adminApi.getPriceUpdateRuns P (Some (Num "1e+21")) Sample.signedIn))
  = network Sample.signedIn
    ++ [bearerCall P "Bearer tok" "GET"
          ("/admin/price-update-runs?" +:+
           URLSearchParams_toString P
             [("limit", JS.numberToString (default (Num "20") (Some (Num "1e+21"))))])
          None].
Proof.
  cbv zeta.
  destruct (adminApi_calls (Sample.server (inr Sample.noContent))
              Sample.signedIn "tok" "Bearer tok" eq_refl)
    as (_ & _ & _ & Hdelete & _ & _ & _ & _ & Hruns);
    [discriminate | reflexivity |].
  split; [apply Hdelete |]. split; apply Hruns.
Defined.

(** X10: the public operations are sent whether or not a token is held and
    never reveal it: the category list, the price snapshots (for 'zar' when
    no currency is given) and the rates for symbols that can be joined each
    go out as one GET with the Accept header alone, and a login goes out as
    one POST of the credentials as JSON with no Authorization header.  When
    the symbols cannot be joined, [getRates] sends nothing. *)
Theorem public_calls_are_anonymous (P : Platform) (st : Client) :
  network (snd (publicApi.getCategories P st))
  = network st ++ [publicCall P "/commodities/categories"] /\
  (forall currency,
     network (snd (publicApi.getCurrentPrices P currency st))
     = network st
       ++ [publicCall P
             ("/prices/current?" +:+
              URLSearchParams_toString P
                [("currency", currencyName (default zar currency))])]) /\
  (forall base item items joined,
     JS.join "," (item :: items) = Some joined ->
     network (snd (currencyApi.getRates P base (VArr (item :: items)) st))
     = network st
       ++ [publicCall P
             ("/currency/rates?" +:+
              URLSearchParams_toString P
                [("base", default "USD" base); ("symbols", joined)])]) /\
  (forall base item items,
     JS.join "," (item :: items) = None ->
     network (snd (currencyApi.getRates P base (VArr (item :: items)) st))
     = network st) /\
  (forall email password,
     network (snd (authApi.login P email password st))
     = network st
       ++ [{| url := API_BASE_URL P +:+ "/auth/login";
              method := "POST";
              headers := <["Content-Type" := "application/json"]>
                           {[ "Accept" := "application/json" ]};
              body := Some (BodyString
                              (JSON_stringify P
                                 (VObj {[ "username" := VStr email;
                                          "password" := VStr password ]}))) |}]).
Proof.
  conjuncts;
    unfold publicApi.getCategories, publicApi.getCurrentPrices,
      currencyApi.getRates, authApi.login.
  - apply request_network, fetchCall_public, prefix_leading_slash.
  - apply request_network, fetchCall_public, prefix_leading_slash.
  - replace (Z.of_nat (length (item :: items)) =? 0) with false
      by (symmetry; apply Z.eqb_neq; simpl length; lia).
    match goal with H : JS.join _ _ = Some _ |- _ => rewrite H end.
    rewrite bind_silent_network by (intros; silent).
    apply request_network, fetchCall_public, prefix_leading_slash.
  - replace (Z.of_nat (length (item :: items)) =? 0) with false
      by (symmetry; apply Z.eqb_neq; simpl length; lia).
    match goal with H : JS.join _ _ = None |- _ => rewrite H end.
    reflexivity.
  - rewrite bind_silent_network by (intros; silent).
    apply request_network. reflexivity.
Qed.

Lemma public_calls_are_anonymous_witness :
  let P := Sample.server (inr Sample.noContent) in
  network (snd (currencyApi.getRates P None (VArr [VStr "ZAR"; VStr "EUR"])
                  Sample.signedIn))
  = network Sample.signedIn
    ++ [publicCall P
          ("/currency/rates?" +:+
           URLSearchParams_toString P [("base", "USD"); ("symbols", "ZAR,EUR")])] /\
  network (snd (currencyApi.getRates P None
                  (VArr [VObj {[ "toString" := VNull ]}]) Sample.signedIn))
  = network Sample.signedIn.
Proof.
  cbv zeta.
  destruct (public_calls_are_anonymous (Sample.server (inr Sample.noContent))
              Sample.signedIn) as (_ & _ & Hrates & Hnone & _).
  split; [apply (Hrates None); reflexivity | apply Hnone; reflexivity].
Defined.

(** ** Login, probe and logout *)

Lemma persistToken_raises_native token st e :
  fst (persistToken token st) = inl e -> exists what, e = Native what.
Proof.
  unfold persistToken. destruct (localStorage st); [| discriminate].
  destruct (JS.truthy token); [| discriminate].
  destruct (JS.toString token); [discriminate |].
  intros [= <-]. eexists. reflexivity.
Qed.

(** A login answered with a token that cannot be written as a string
    raises after the variable was assigned: the storage keeps what it had
    while the variable holds the new token, and the next authenticated
    request raises before anything is sent. *)
Example login_with_unwritable_token :
  let token := VObj {[ "toString" := VNum (Num "0") ]} in
  let P := Sample.server
             (inr (Sample.jsonResponse 200
                     (VObj {[ "data" := VObj {[ "token" := token ]} ]}))) in
  let st' := snd (authApi.login P "alice@example.org" "secret" Sample.signedIn) in
  fst (authApi.login P "alice@example.org" "secret" Sample.signedIn)
  = inl (Native "TypeError: Cannot convert object to primitive value") /\
  accessToken st' = token /\
  storedToken st' = Some "tok" /\
  request P "/admin/commodities" noOptions st'
  = (inl (Native "TypeError: Cannot convert object to primitive value"), st').
Proof. cbv zeta. repeat split; reflexivity. Qed.

(** X11: how a login can fail.  Either the token and the storage are as
    they were; or the call was rejected with status 401 or 403 and whatever
    token was held is cleared; or the call had succeeded and the writing of
    the returned token raised, and then the variable already holds the
    returned token while the storage is as it was. *)
Theorem failed_login_outcomes
    (P : Platform) (email password : string) (st st' : Client) (e : exn) :
  authApi.login P email password st = (inl e, st') ->
  (accessToken st' = accessToken st /\ localStorage st' = localStorage st) \/
  (accessToken st' = VNull /\ storedToken st' = None /\
   exists message details,
     e = ApiError message (Some 401) details \/
     e = ApiError message (Some 403) details) \/
  (exists result st1 what,
     request P "/auth/login"
       {| opt_method := Some "POST";
          opt_body := VObj {[ "username" := VStr email;
                              "password" := VStr password ]};
          opt_authenticated := Some false |} st
     = (inr result, st1) /\
     e = Native what /\
     JS.truthy (JS.prop result "token") = true /\
     accessToken st' = JS.prop result "token" /\
     localStorage st' = localStorage st).
Proof.
  rewrite login_unfold.
  match goal with
  | |- context [request P ?p ?o st] =>
      set (path := p); set (options := o)
  end.
  intros Hlogin.
  destruct (request P path options st) as [[e1 | r] st1] eqn:Hreq.
  - injection Hlogin as <- <-.
    destruct (fetchCall P path options st) as [err | call] eqn:Hcall.
    { rewrite (request_stopped P path options st err Hcall) in Hreq.
      injection Hreq as <- <-. left. split; reflexivity. }
    destruct (fetch P (network st) call) as [err | response] eqn:Hfetch.
    { rewrite (request_fetch_rejected P path options st call err Hcall Hfetch)
        in Hreq.
      injection Hreq as <- <-. left. split; reflexivity. }
    rewrite (request_sent P path options st call response Hcall Hfetch) in Hreq.
    destruct (readPayload response) as [err | payload].
    { injection Hreq as <- <-. left. split; reflexivity. }
    destruct (ok response) eqn:Hok.
    { rewrite settle_success in Hreq by exact Hok. discriminate. }
    rewrite settle_failure in Hreq by exact Hok.
    injection Hreq as <- <-.
    destruct (Z.eqb_spec (status response) 401) as [H401 | H401]; simpl.
    { right. left. split; [apply persistToken_accessToken |].
      split; [apply persistToken_null_stored |].
      eexists. eexists. left. rewrite H401. reflexivity. }
    destruct (Z.eqb_spec (status response) 403) as [H403 | H403]; simpl.
    { right. left. split; [apply persistToken_accessToken |].
      split; [apply persistToken_null_stored |].
      eexists. eexists. right. rewrite H403. reflexivity. }
    left. split; reflexivity.
  - destruct (request_success_state P path options st r st1 Hreq)
      as (call & _ & ->).
    destruct (JS.nullish r).
    { injection Hlogin as <- <-. left. split; reflexivity. }
    pose proof (persistToken_raised (JS.prop r "token") (logged st call)) as Hp.
    pose proof (persistToken_raises_native (JS.prop r "token") (logged st call))
      as Hnative.
    destruct (persistToken (JS.prop r "token") (logged st call))
      as [[e2 | u] st2]; [| discriminate].
    injection Hlogin as <- <-.
    destruct (Hp e2 eq_refl) as (Htruthy & _ & Hheld & Hstorage).
    destruct (Hnative e2 eq_refl) as [what ->].
    right. right. exists r, (logged st call), what.
    split; [reflexivity |]. split; [reflexivity |].
    split; [exact Htruthy |]. split; [exact Hheld | exact Hstorage].
Qed.

Lemma failed_login_outcomes_witness :
  let P := Sample.server (inr (Sample.jsonResponse 401 Sample.expired)) in
  let st' := snd (authApi.login P "alice@example.org" "wrong" Sample.signedIn) in
  accessToken st' = VNull /\ storedToken st' = None.
Proof.
  cbv zeta.
  destruct (failed_login_outcomes
              (Sample.server (inr (Sample.jsonResponse 401 Sample.expired)))
              "alice@example.org" "wrong" Sample.signedIn
              (snd (authApi.login
                      (Sample.server (inr (Sample.jsonResponse 401 Sample.expired)))
                      "alice@example.org" "wrong" Sample.signedIn))
              (ApiError "Session expired" (Some 401) Sample.expired) eq_refl)
    as [[Hsame _] | [(Hcleared & Hstored & _) | (r & st1 & what & Hreq & _)]].
  - discriminate Hsame.
  - split; [exact Hcleared | exact Hstored].
  - discriminate Hreq.
Defined.

(** X12: what the login does with an answer that is not the expected
    object.  When the call succeeds without a result ([null] or
    [undefined], as after a 204), the login raises a TypeError and the
    session stays as it was; when the result has no 'token', the login
    returns it all the same, and the token held before, if any, is
    cleared. *)
Theorem login_with_unexpected_answer
    (P : Platform) (email password : string) (st st1 : Client)
    (result : value) :
  request P "/auth/login"
    {| opt_method := Some "POST";
       opt_body := VObj {[ "username" := VStr email;
                           "password" := VStr password ]};
       opt_authenticated := Some false |} st
  = (inr result, st1) ->
  (JS.nullish result = true ->
   exists what st',
     authApi.login P email password st = (inl (Native what), st') /\
     accessToken st' = accessToken st /\
     localStorage st' = localStorage st) /\
  (JS.nullish result = false ->
   JS.prop result "token" = VUndefined ->
   exists st',
     authApi.login P email password st = (inr result, st') /\
     JS.truthy (accessToken st') = false /\
     storedToken st' = None).
Proof.
  intros Hreq. rewrite login_unfold, Hreq.
  destruct (request_success_state P _ _ st result st1 Hreq) as (call & _ & ->).
  split.
  - intros ->. eexists. eexists. repeat split.
  - intros -> ->. exists (snd (persistToken VUndefined (logged st call))).
    split; [| split].
    + unfold persistToken. simpl. destruct (localStorage st); reflexivity.
    + rewrite persistToken_accessToken. reflexivity.
    + unfold storedToken, persistToken. simpl.
      destruct (localStorage st); simpl; [apply lookup_delete_eq | reflexivity].
Qed.

Lemma login_with_unexpected_answer_witness :
  (exists what st',
     authApi.login (Sample.server (inr Sample.noContent))
       "alice@example.org" "secret" Sample.signedIn
     = (inl (Native what), st') /\
     accessToken st' = accessToken Sample.signedIn /\
     localStorage st' = localStorage Sample.signedIn) /\
  (exists st',
     authApi.login (Sample.server (inr (Sample.jsonResponse 200 Sample.alice)))
       "alice@example.org" "secret" Sample.signedIn
     = (inr Sample.alice, st') /\
     JS.truthy (accessToken st') = false /\
     storedToken st' = None).
Proof.
  split.
  - eapply (login_with_unexpected_answer
              (Sample.server (inr Sample.noContent))
              "alice@example.org" "secret" Sample.signedIn _ VNull);
      reflexivity.
  - eapply (login_with_unexpected_answer
              (Sample.server (inr (Sample.jsonResponse 200 Sample.alice)))
              "alice@example.org" "secret" Sample.signedIn _ Sample.alice);
      reflexivity.
Defined.

Lemma me_without_token P st :
  JS.truthy (accessToken st) = false -> authApi.me P st = (inr VNull, st).
Proof.
  intros H. unfold authApi.me, bind, readToken. rewrite H. reflexivity.
Qed.

Lemma me_with_token P st :
  JS.truthy (accessToken st) = true ->
  authApi.me P st
  = match request P "/auth/me" noOptions st with
    | (inr result, st1) => member result "user" st1
    | (inl e, st1) =>
        if isApiError401 e then (inr VNull, st1) else (inl e, st1)
    end.
Proof.
  intros H. unfold authApi.me, bind at 1, readToken. rewrite H. simpl.
  unfold tryCatch, bind.
  destruct (request P "/auth/me" noOptions st) as [[e | r] st1].
  - destruct (isApiError401 e); reflexivity.
  - unfold member. destruct (JS.nullish r); reflexivity.
Qed.

(** X13: a probe the server rejects ends the session.  With a token held
    and the payload of the answer read, a 401 makes [me()] return [null]
    and a 403 makes it raise the error, and in both cases the token is
    cleared, so that the next probe returns [null] without a call. *)
Theorem rejected_probe_ends_session
    (P : Platform) (st : Client) (call : FetchCall) (response : Response)
    (payload : value) :
  JS.truthy (accessToken st) = true ->
  fetchCall P "/auth/me" noOptions st = inr call ->
  fetch P (network st) call = inr response ->
  readPayload response = inr payload ->
  (status response = 401 ->
   exists st',
     authApi.me P st = (inr VNull, st') /\
     accessToken st' = VNull /\ storedToken st' = None /\
     authApi.me P st' = (inr VNull, st')) /\
  (status response = 403 ->
   exists message st',
     authApi.me P st = (inl (ApiError message (Some 403) payload), st') /\
     accessToken st' = VNull /\ storedToken st' = None /\
     authApi.me P st' = (inr VNull, st')).
Proof.
  intros Hheld Hcall Hfetch Hread.
  rewrite (me_with_token P st Hheld).
  rewrite (request_sent P "/auth/me" noOptions st call response Hcall Hfetch),
    Hread.
  split; intros Hstatus.
  - rewrite settle_failure by (unfold ok; rewrite Hstatus; reflexivity).
    rewrite Hstatus. simpl. eexists. split; [reflexivity |].
    split; [apply persistToken_accessToken |].
    split; [apply persistToken_null_stored |].
    apply me_without_token. rewrite persistToken_accessToken. reflexivity.
  - rewrite settle_failure by (unfold ok; rewrite Hstatus; reflexivity).
    rewrite Hstatus. simpl. eexists. eexists. split; [reflexivity |].
    split; [apply persistToken_accessToken |].
    split; [apply persistToken_null_stored |].
    apply me_without_token. rewrite persistToken_accessToken. reflexivity.
Qed.

Lemma rejected_probe_ends_session_witness :
  let P := Sample.server (inr (Sample.jsonResponse 401 Sample.expired)) in
  exists st',
    authApi.me P Sample.signedIn = (inr VNull, st') /\
    accessToken st' = VNull /\ storedToken st' = None /\
    authApi.me P st' = (inr VNull, st').
Proof.
  cbv zeta.
  eapply (rejected_probe_ends_session
            (Sample.server (inr (Sample.jsonResponse 401 Sample.expired)))
            Sample.signedIn _ (Sample.jsonResponse 401 Sample.expired)
            Sample.expired eq_refl eq_refl eq_refl eq_refl).
  reflexivity.
Defined.

(** X14: after [logout()], however it ended and whatever was held before,
    no token is held: a second logout and a probe return at once and leave
    the client as it is, and every authenticated request fails locally.  A
    logout made without a token changes nothing and sends nothing. *)
Theorem logout_ends_session (P : Platform) (st : Client) :
  JS.truthy (accessToken (snd (authApi.logout P st))) = false /\
  authApi.logout P (snd (authApi.logout P st))
  = (inr tt, snd (authApi.logout P st)) /\
  authApi.me P (snd (authApi.logout P st))
  = (inr VNull, snd (authApi.logout P st)) /\
  (forall path options,
     authenticatedOf options = true ->
     request P path options (snd (authApi.logout P st))
     = (inl notAuthenticated, snd (authApi.logout P st))) /\
  (JS.truthy (accessToken st) = false -> authApi.logout P st = (inr tt, st)).
Proof.
  assert (Hnone : forall s, JS.truthy (accessToken s) = false ->
                            authApi.logout P s = (inr tt, s)).
  { intros s H. unfold authApi.logout, bind, readToken. rewrite H. reflexivity. }
  assert (Hafter : JS.truthy (accessToken (snd (authApi.logout P st))) = false).
  { destruct (JS.truthy (accessToken st)) eqn:Hheld.
    - rewrite (logout_held P st Hheld), tryFinally_clear. simpl.
      rewrite persistToken_accessToken. reflexivity.
    - rewrite (Hnone st Hheld). exact Hheld. }
  split; [exact Hafter |].
  split; [apply Hnone; exact Hafter |].
  split; [apply me_without_token; exact Hafter |].
  split; [| apply Hnone].
  intros path options Hauth. apply request_blocked.
  apply unauthenticated_no_token; assumption.
Qed.

Lemma logout_ends_session_witness :
  authApi.logout (Sample.server (inr Sample.noContent)) Sample.signedOut
  = (inr tt, Sample.signedOut).
Proof.
  apply (logout_ends_session (Sample.server (inr Sample.noContent))
           Sample.signedOut).
  reflexivity.
Defined.

(** ** Rates and commodity paths *)

(** X15: when [getRates] returns, what it returns is never [null] or
    [undefined]. *)
Theorem getRates_never_returns_null
    (P : Platform) (base : option string) (symbols : value) (st : Client)
    (v : value) :
  fst (currencyApi.getRates P base symbols st) = inr v ->
  JS.nullish v = false.
Proof.
  unfold currencyApi.getRates.
  destruct symbols as [| | | | |items| |]; try (intros [= <-]; reflexivity).
  destruct (Z.of_nat (length items) =? 0); [intros [= <-]; reflexivity |].
  destruct (JS.join "," items) as [joined|]; [| discriminate].
  unfold bind.
  destruct (request P _ _ st) as [[e | response] st1]; [discriminate |].
  unfold member. destruct (JS.nullish response); [discriminate |]. simpl.
  destruct (JS.nullish (JS.prop response "rates")) eqn:Hrates;
    intros [= <-]; [reflexivity | exact Hrates].
Qed.

Lemma getRates_never_returns_null_witness :
  JS.nullish
    (VObj {[ "ZAR" := VNum (Num "18") ]}) = false /\
  fst (currencyApi.getRates
         (Sample.server
            (inr (Sample.jsonResponse 200
                    (VObj {[ "rates" := VObj {[ "ZAR" := VNum (Num "18") ]} ]}))))
         None (VArr [VStr "ZAR"]) Sample.signedOut)
  = inr (VObj {[ "ZAR" := VNum (Num "18") ]}).
Proof.
  split; [| reflexivity].
  apply (getRates_never_returns_null
           (Sample.server
              (inr (Sample.jsonResponse 200
                      (VObj {[ "rates" := VObj {[ "ZAR" := VNum (Num "18") ]} ]}))))
           None (VArr [VStr "ZAR"]) Sample.signedOut).
  reflexivity.
Defined.

(** The commodity id is put into the path as it is, without escaping:
    updating the commodity whose id is written [id/price] is the same
    operation as updating the spot price of [id], and likewise for
    [id/price-range] and the price range. *)
Remark commodity_id_is_not_escaped
    (P : Platform) (id : string) (payload : value) (st : Client) :
  adminApi.updateCommodity P (id +:+ "/price") payload st
  = adminApi.updateCommodityPrice P id payload st /\
  adminApi.updateCommodity P (id +:+ "/price-range") payload st
  = adminApi.updatePriceRange P id payload st.
Proof. split; reflexivity. Qed.

(** ** Helpers of the console *)

Lemma toUpperCase_facts c :
  App.isWordChar (App.toUpperCase c) = App.isWordChar c /\
  App.toUpperCase (App.toUpperCase c) = App.toUpperCase c /\
  Ascii.eqb (App.toUpperCase c) "_" = Ascii.eqb c "_".
Proof.
  destruct c as [[] [] [] [] [] [] [] []]; vm_compute; repeat split.
Qed.

Lemma capitalise_idempotent s :
  forall b, App.capitalise b (App.capitalise b s) = App.capitalise b s.
Proof.
  induction s as [|c s IH]; intros b; [reflexivity |].
  cbn [App.capitalise].
  destruct (toUpperCase_facts c) as (Hword & Hup & _).
  destruct (App.isWordChar c) eqn:Hc; destruct b; simpl;
    rewrite ?Hword, ?Hc, ?Hup; simpl; f_equal; apply IH.
Qed.

Lemma capitalise_occurs s :
  forall b, occurs "_" (App.capitalise b s) = occurs "_" s.
Proof.
  induction s as [|c s IH]; intros b; [reflexivity |].
  cbn [App.capitalise occurs]. rewrite IH.
  destruct (toUpperCase_facts c) as (_ & _ & Hunder).
  destruct (App.isWordChar c && negb b); [rewrite Hunder |]; reflexivity.
Qed.

Lemma replaceUnderscores_occurs s :
  occurs "_" (App.replaceUnderscores s) = false.
Proof.
  induction s as [|c s IH]; [reflexivity |].
  cbn [App.replaceUnderscores occurs]. rewrite IH.
  destruct (Ascii.eqb_spec c "_") as [-> | Hc]; [reflexivity |].
  rewrite orb_false_r. apply Ascii.eqb_neq. exact Hc.
Qed.

Lemma replaceUnderscores_without s :
  occurs "_" s = false -> App.replaceUnderscores s = s.
Proof.
  induction s as [|c s IH]; [reflexivity |].
  cbn [App.replaceUnderscores occurs]. intros H.
  apply orb_false_elim in H as [Hc Hs]. rewrite Hc, (IH Hs). reflexivity.
Qed.

Lemma capitalise_length s :
  forall b, String.length (App.capitalise b s) = String.length s.
Proof.
  induction s as [|c s IH]; intros b; [reflexivity |].
  cbn [App.capitalise String.length]. rewrite IH. reflexivity.
Qed.

Lemma replaceUnderscores_length s :
  String.length (App.replaceUnderscores s) = String.length s.
Proof.
  induction s as [|c s IH]; [reflexivity |].
  cbn [App.replaceUnderscores String.length]. rewrite IH. reflexivity.
Qed.

(** X16: [humanize] yields a label in its final form: it is never empty and
    has no underscore, it has the length of the text it was given ('Unknown'
    standing for a missing or empty one), and humanizing a label again gives
    the same label. *)
Theorem humanize_gives_a_stable_label (value : option string) :
  App.humanize value <> "" /\
  occurs "_" (App.humanize value) = false /\
  (forall s, value = Some s -> s <> "" ->
             String.length (App.humanize value) = String.length s) /\
  App.humanize (Some (App.humanize value)) = App.humanize value.
Proof.
  destruct value as [s|]; [| repeat split; try discriminate; reflexivity].
  destruct (String.eqb_spec s "") as [-> | Hs].
  { repeat split; try reflexivity; [discriminate | intros s [= <-]; contradiction]. }
  assert (Hlabel : App.humanize (Some s)
                   = App.capitalise false (App.replaceUnderscores s)).
  { unfold App.humanize. destruct (String.eqb_spec s ""); [contradiction |].
    reflexivity. }
  rewrite Hlabel.
  set (label := App.capitalise false (App.replaceUnderscores s)).
  assert (Hlen : String.length label = String.length s)
    by (unfold label; rewrite capitalise_length; apply replaceUnderscores_length).
  assert (Hne : label <> "")
    by (intros H; rewrite H in Hlen; destruct s; [contradiction | discriminate]).
  assert (Hunder : occurs "_" label = false)
    by (unfold label; rewrite capitalise_occurs; apply replaceUnderscores_occurs).
  split; [exact Hne |]. split; [exact Hunder |].
  split; [intros s' [= <-] _; exact Hlen |].
  unfold App.humanize. destruct (String.eqb_spec label ""); [contradiction |].
  rewrite (replaceUnderscores_without label Hunder).
  unfold label. apply capitalise_idempotent.
Qed.

Lemma humanize_gives_a_stable_label_witness :
  App.humanize (Some "price_update_cron") = "Price Update Cron" /\
  String.length (App.humanize (Some "price_update_cron"))
  = String.length "price_update_cron".
Proof.
  split; [reflexivity |].
  apply (humanize_gives_a_stable_label (Some "price_update_cron"));
    [reflexivity | discriminate].
Defined.

Lemma someCategory_head c rest : App.someCategory (App.id c) (c :: rest) = true.
Proof. unfold App.someCategory. simpl. rewrite String.eqb_refl. reflexivity. Qed.

Lemma alignCategory_listed categories prev :
  App.category_id prev <> "" ->
  App.someCategory (App.category_id prev) categories = true ->
  App.alignCategory categories prev = prev.
Proof.
  intros Hset Hlisted. unfold App.alignCategory. rewrite Hlisted.
  destruct (String.eqb_spec (App.category_id prev) ""); [contradiction |].
  reflexivity.
Qed.

Lemma alignCategory_cases categories prev :
  (App.alignCategory categories prev = prev /\
   forall first rest,
     categories = first :: rest -> App.id first <> "" ->
     App.someCategory (App.category_id prev) categories = true) \/
  (exists first rest,
     categories = first :: rest /\ App.id first <> "" /\
     App.alignCategory categories prev
     = {| App.draft_name := App.draft_name prev;
          App.draft_symbol := App.draft_symbol prev;
          App.category_id := App.id first;
          App.draft_unit := App.draft_unit prev;
          App.draft_description := App.draft_description prev;
          App.is_active := App.is_active prev |}).
Proof.
  unfold App.alignCategory.
  destruct (negb (String.eqb (App.category_id prev) "")
            && App.someCategory (App.category_id prev) categories) eqn:Hkeep.
  { left. split; [reflexivity |]. intros first rest _ _.
    apply andb_prop in Hkeep as [_ Hlisted]. exact Hlisted. }
  destruct categories as [|first rest]; simpl head; simpl from_option.
  { left. split; [reflexivity | discriminate]. }
  destruct (String.eqb_spec (App.id first) "") as [Hnone | Hid]; simpl.
  { left. split; [reflexivity |]. intros first' rest' [= <- <-] Hid.
    contradiction. }
  destruct (String.eqb_spec (App.category_id prev) (App.id first))
    as [Hsame | Hother].
  { left. split; [reflexivity |]. intros first' rest' [= <- <-] _.
    rewrite Hsame. apply someCategory_head. }
  right. exists first, rest. auto.
Qed.

(** X17: the effect that follows the category list only ever changes the
    category of the new-commodity draft, never overrides a category that is
    in the list, is stable when applied again, and, when the list starts
    with a category that has an id, leaves the draft on a category of the
    list. *)
Theorem alignCategory_settles_on_a_listed_category
    (categories : list App.CategoryOption) (prev : App.ManageDraft) :
  App.draft_name (App.alignCategory categories prev) = App.draft_name prev /\
  App.draft_symbol (App.alignCategory categories prev) = App.draft_symbol prev /\
  App.draft_unit (App.alignCategory categories prev) = App.draft_unit prev /\
  App.draft_description (App.alignCategory categories prev)
  = App.draft_description prev /\
  App.is_active (App.alignCategory categories prev) = App.is_active prev /\
  (App.category_id prev <> "" ->
   App.someCategory (App.category_id prev) categories = true ->
   App.alignCategory categories prev = prev) /\
  App.alignCategory categories (App.alignCategory categories prev)
  = App.alignCategory categories prev /\
  (forall first rest,
     categories = first :: rest -> App.id first <> "" ->
     App.someCategory
       (App.category_id (App.alignCategory categories prev)) categories
     = true).
Proof.
  destruct (alignCategory_cases categories prev)
    as [[Hsame Hlisted] | (first & rest & -> & Hid & Hmoved)].
  - rewrite !Hsame.
    do 5 (split; [reflexivity |]). split; [reflexivity |].
    split; [reflexivity | exact Hlisted].
  - rewrite !Hmoved.
    cbn [App.draft_name App.draft_symbol App.draft_unit App.draft_description
         App.is_active App.category_id].
    do 5 (split; [reflexivity |]).
    split; [intros; rewrite <- Hmoved; apply alignCategory_listed; assumption |].
    split.
    + apply alignCategory_listed; [exact Hid | apply someCategory_head].
    + intros first' rest' _ _. apply someCategory_head.
Qed.

Lemma alignCategory_settles_on_a_listed_category_witness :
  let oils := {| App.id := "c1"; App.name := "Oils";
                 App.description := None; App.display_order := Some 1 |} in
  let draft := {| App.draft_name := "Canola"; App.draft_symbol := "CAN";
                  App.category_id := "gone"; App.draft_unit := "t";
                  App.draft_description := ""; App.is_active := true |} in
  App.category_id (App.alignCategory [oils] draft) = "c1" /\
  App.someCategory (App.category_id (App.alignCategory [oils] draft)) [oils]
  = true.
Proof.
  cbv zeta. split; [reflexivity |].
  eapply (alignCategory_settles_on_a_listed_category _ _);
    [reflexivity | discriminate].
Defined.

(** ** Outcomes of a request *)

Lemma fetchCall_stopped_cases P path options st e :
  fetchCall P path options st = inl e ->
  e = notAuthenticated \/ exists what, e = Native what.
Proof.
  unfold fetchCall. destruct (unauthenticated options st).
  { intros [= <-]. left. reflexivity. }
  destruct (encodeBody (JSON_stringify P) (opt_body options)) as [h b].
  unfold authorise.
  destruct (authenticatedOf options && JS.truthy (accessToken st));
    [| discriminate].
  destruct (JS.toString (accessToken st)) as [token|];
    [| intros [= <-]; right; eexists; reflexivity].
  destruct (Headers.stored ("Bearer " +:+ token));
    [discriminate | intros [= <-]; right; eexists; reflexivity].
Qed.

(** X18: what [request] settles to tells what happened.  It returns only
    when the call went out and was answered with a 2xx status; an
    [ApiError] it raises always carries a status, which is never a 2xx one:
    401 with nothing sent, or the status of the answer. *)
Theorem request_outcome_reflects_status
    (P : Platform) (path : string) (options : RequestOptions) (st : Client) :
  (forall v,
     fst (request P path options st) = inr v ->
     exists call response,
       fetchCall P path options st = inr call /\
       fetch P (network st) call = inr response /\
       ok response = true) /\
  (forall message code details,
     fst (request P path options st) = inl (ApiError message code details) ->
     exists n,
       code = Some n /\ (n < 200 \/ 299 < n) /\
       ((n = 401 /\ network (snd (request P path options st)) = network st) \/
        exists call response,
          fetchCall P path options st = inr call /\
          fetch P (network st) call = inr response /\
          status response = n)).
Proof.
  destruct (fetchCall P path options st) as [stop | call] eqn:Hcall.
  { rewrite (request_stopped P path options st stop Hcall). simpl. split.
    - discriminate.
    - intros message code details Hstop.
      destruct (fetchCall_stopped_cases P path options st stop Hcall)
        as [-> | [what ->]]; [| discriminate].
      injection Hstop as <- <- <-. exists 401.
      split; [reflexivity |]. split; [lia |]. left. split; reflexivity. }
  destruct (fetch P (network st) call) as [e | response] eqn:Hfetch.
  { rewrite (request_fetch_rejected P path options st call e Hcall Hfetch).
    split; discriminate. }
  rewrite (request_sent P path options st call response Hcall Hfetch).
  destruct (readPayload response) as [e | payload]; [split; discriminate |].
  destruct (ok response) eqn:Hok.
  - rewrite settle_success by exact Hok. split; [| discriminate].
    intros v _. exists call, response.
    split; [reflexivity |]. split; [exact Hfetch | exact Hok].
  - rewrite settle_failure by exact Hok. split; [discriminate |].
    intros message code details [= <- <- <-]. exists (status response).
    split; [reflexivity |]. split.
    + unfold ok in Hok. apply andb_false_iff in Hok as [H | H];
        apply Z.leb_gt in H; lia.
    + right. exists call, response.
      split; [reflexivity |]. split; [exact Hfetch | reflexivity].
Qed.

Lemma request_outcome_reflects_status_witness :
  let P := Sample.server (inr (Sample.jsonResponse 200 (Sample.loginPayload "abc"))) in
  exists call response,
    fetchCall P "/admin/commodities" noOptions Sample.signedIn = inr call /\
    fetch P (network Sample.signedIn) call = inr response /\
    ok response = true.
Proof.
  cbv zeta.
  eapply (request_outcome_reflects_status
            (Sample.server (inr (Sample.jsonResponse 200 (Sample.loginPayload "abc"))))
            "/admin/commodities" noOptions Sample.signedIn).
  reflexivity.
Defined.

(** X19: what the probe does with an answer that is not the expected
    object.  With a token held, when the call succeeds without a result
    ([null] or [undefined], as after a 204) [me()] raises a TypeError, and
    when the result has no 'user' it returns [undefined]; in both cases the
    token and the storage stay as they were. *)
Theorem probe_with_unexpected_answer
    (P : Platform) (st st1 : Client) (result : value) :
  JS.truthy (accessToken st) = true ->
  request P "/auth/me" noOptions st = (inr result, st1) ->
  accessToken (snd (authApi.me P st)) = accessToken st /\
  localStorage (snd (authApi.me P st)) = localStorage st /\
  (JS.nullish result = true ->
   exists what, fst (authApi.me P st) = inl (Native what)) /\
  (JS.nullish result = false ->
   JS.prop result "user" = VUndefined ->
   fst (authApi.me P st) = inr VUndefined).
Proof.
  intros Hheld Hreq. rewrite (me_with_token P st Hheld), Hreq.
  destruct (request_success_state P _ _ st result st1 Hreq) as (call & _ & ->).
  unfold member. destruct (JS.nullish result); simpl.
  - repeat split; try discriminate. intros _. eexists. reflexivity.
  - repeat split; try discriminate. intros _ ->. reflexivity.
Qed.

Lemma probe_with_unexpected_answer_witness :
  (exists what,
     fst (authApi.me (Sample.server (inr Sample.noContent)) Sample.signedIn)
     = inl (Native what)) /\
  fst (authApi.me
         (Sample.server (inr (Sample.jsonResponse 200 (VObj ∅))))
         Sample.signedIn)
  = inr VUndefined.
Proof.
  split.
  - eapply (probe_with_unexpected_answer
              (Sample.server (inr Sample.noContent)) Sample.signedIn _ VNull);
      reflexivity.
  - eapply (probe_with_unexpected_answer
              (Sample.server (inr (Sample.jsonResponse 200 (VObj ∅))))
              Sample.signedIn _ (VObj ∅));
      reflexivity.
Defined.

(** X20: failures of the transport pass through unchanged.  When the call
    has gone out and [fetch] rejects, or the body of the answer cannot be
    read, [request] raises that very error, whatever the status of the
    answer, and the client is as before but for the call in the log. *)
Theorem transport_failures_propagate
    (P : Platform) (path : string) (options : RequestOptions) (st : Client)
    (call : FetchCall) :
  fetchCall P path options st = inr call ->
  (forall e,
     fetch P (network st) call = inl e ->
     request P path options st = (inl (Native e), logged st call)) /\
  (forall response e,
     fetch P (network st) call = inr response ->
     readPayload response = inl e ->
     request P path options st = (inl (Native e), logged st call)).
Proof.
  intros Hcall. split.
  - intros e Hfetch. apply request_fetch_rejected; assumption.
  - intros response e Hfetch Hread.
    rewrite (request_sent P path options st call response Hcall Hfetch), Hread.
    reflexivity.
Qed.

Lemma transport_failures_propagate_witness :
  let call :=
    bearerCall (Sample.server (inr Sample.noContent)) "Bearer tok"
      "GET" "/admin/commodities" None in
  request (Sample.server (inl "TypeError: Failed to fetch"))
    "/admin/commodities" noOptions Sample.signedIn
  = (inl (Native "TypeError: Failed to fetch"), logged Sample.signedIn call) /\
  request (Sample.server (inr (Sample.unreadable 403)))
    "/admin/commodities" noOptions Sample.signedIn
  = (inl (Native "SyntaxError: Unexpected end of JSON input"),
     logged Sample.signedIn call).
Proof.
  cbv zeta. split.
  - apply (transport_failures_propagate
             (Sample.server (inl "TypeError: Failed to fetch"))
             "/admin/commodities" noOptions Sample.signedIn _ eq_refl).
    reflexivity.
  - apply (proj2 (transport_failures_propagate
                    (Sample.server (inr (Sample.unreadable 403)))
                    "/admin/commodities" noOptions Sample.signedIn _ eq_refl)
             (Sample.unreadable 403)); reflexivity.
Defined.

(** X21: login and probe compose.  After a successful login that returned
    the non-empty token [t], whose bearer text is a valid header value, a
    probe goes out as a GET of /auth/me with the Authorization header that
    [headers.set] keeps for 'Bearer t'; when it is answered with a 2xx
    status and a payload whose 'data' is an object with a 'user', [me()]
    returns that user and the token is still held. *)
Theorem login_then_probe
    (P : Platform) (email password : string) (st st' : Client)
    (result : value) (t kept : string) (response : Response)
    (payload : value) (o : gmap string value) (user : value) :
  authApi.login P email password st = (inr result, st') ->
  JS.prop result "token" = VStr t ->
  t <> "" ->
  Headers.stored ("Bearer " +:+ t) = Some kept ->
  fetch P (network st') (bearerCall P kept "GET" "/auth/me" None)
  = inr response ->
  ok response = true ->
  readPayload response = inr payload ->
  hasData payload (VObj o) ->
  o !! "user" = Some user ->
  authApi.me P st'
  = (inr user, logged st' (bearerCall P kept "GET" "/auth/me" None)) /\
  accessToken (snd (authApi.me P st')) = VStr t.
Proof.
  intros Hlogin Htoken Ht Hkept Hfetch Hok Hread (o' & -> & Hdata) Huser.
  assert (Hheld : accessToken st' = VStr t).
  { rewrite login_unfold in Hlogin.
    destruct (request P _ _ st) as [[e | r] st1]; [discriminate |].
    destruct (JS.nullish r); [discriminate |].
    pose proof (persistToken_accessToken (JS.prop r "token") st1) as Hp.
    destruct (persistToken (JS.prop r "token") st1) as [[e | u] st2];
      [discriminate |].
    injection Hlogin as -> ->. rewrite Htoken in Hp. exact Hp. }
  assert (Htruthy : JS.truthy (accessToken st') = true).
  { rewrite Hheld. simpl. destruct (String.eqb_spec t ""); [contradiction |].
    reflexivity. }
  assert (Hcall : fetchCall P "/auth/me" noOptions st'
                  = inr (bearerCall P kept "GET" "/auth/me" None))
    by (apply (fetchCall_bearer P "/auth/me" None None st' t kept); auto).
  rewrite (me_with_token P st' Htruthy).
  rewrite (request_sent P "/auth/me" noOptions st' _ response Hcall Hfetch),
    Hread.
  rewrite settle_success by exact Hok. simpl.
  rewrite bool_decide_true by (rewrite Hdata; eauto). rewrite Hdata. simpl.
  unfold member. simpl. rewrite Huser. simpl. split; [reflexivity | exact Hheld].
Qed.

Lemma login_then_probe_witness :
  let P := Sample.server (inr (Sample.jsonResponse 200 (Sample.loginPayload "abc"))) in
  let st' := snd (authApi.login P "alice@example.org" "secret" Sample.signedOut) in
  authApi.me P st'
  = (inr Sample.alice,
     logged st' (bearerCall P "Bearer abc" "GET" "/auth/me" None)) /\
  accessToken (snd (authApi.me P st')) = VStr "abc".
Proof.
  cbv zeta.
  eapply (login_then_probe
            (Sample.server (inr (Sample.jsonResponse 200 (Sample.loginPayload "abc"))))
            "alice@example.org" "secret" Sample.signedOut _ _ "abc" "Bearer abc"
            (Sample.jsonResponse 200 (Sample.loginPayload "abc"))
            (Sample.loginPayload "abc")
            {[ "token" := VStr "abc"; "user" := Sample.alice ]} Sample.alice).
  - reflexivity.
  - reflexivity.
  - discriminate.
  - reflexivity.
  - reflexivity.
  - reflexivity.
  - reflexivity.
  - eexists. split; reflexivity.
  - reflexivity.
Defined.
